(** * Site control-plane service: a shallow embedding of
      [deployment-drivers/go/http/main.go] and the properties of its handlers.

    The service translates REST calls on "sites" into calls to a remote
    deployment-management API.  The handlers are embedded as state-passing
    functions over a [World] that holds the remote service, the ordered
    record of outbound exchanges and the server log; the
    [http.ResponseWriter] handed to a handler is passed and returned
    explicitly.  Go's [(value, error)] results become [result], a nilable
    pointer becomes [option], a Go [map] becomes a [gmap]. *)

From Stdlib Require Import ZArith.
From stdpp Require Import base option strings list gmap pretty.

Local Open Scope Z_scope.
Local Open Scope string_scope.

(** ** Go values used by the program *)

(** A Go [(T, error)] pair; an [error] is represented by its message. *)
Inductive result (A : Type) : Type :=
| Ok (a : A)
| Err (msg : string).
Arguments Ok {A} a.
Arguments Err {A} msg.

(** What [encoding/json] stores in an [interface{}]; a number is kept as
    its literal. *)
#[local] Set Warnings "-register-all".
Inductive any : Type :=
| JNull
| JBool (b : bool)
| JNumber (literal : string)
| JString (s : string)
| JArray (l : list any)
| JObject (fields : list (string * any)).

(** The comma-ok type assertion [v.(string)] on the result of a map index:
    the zero value when the key is absent or the value is not a string. *)
Definition assert_string (v : option any) : string * bool :=
  match v with
  | Some (JString s) => (s, true)
  | _ => (EmptyString, false)
  end.

(** ** Request and response schemas (main.go lines 23-101) *)

Record gitContext := {
  Branch : string;
  RepoDir : string }.

Record sourceContext := {
  Git : gitContext }.

Record awsOIDCContext := {
  RoleARN : string;
  SessionName : string }.

Record oidcContext := {
  AWS : option awsOIDCContext }.

Record operationContext := {
  Environment : gmap string string;
  OIDC : option oidcContext }.

Record gitHubContext := {
  Repository : string;
  Paths : list string;
  DeployCommits : bool;
  PreviewPullRequests : bool }.

Record DeploymentSettings := {
  SourceContext : option sourceContext;
  OperationContext : option operationContext;
  GitHub : option gitHubContext }.

(** The zero value of [DeploymentSettings]: every pointer is nil. *)
Definition zeroDeploymentSettings : DeploymentSettings :=
  {| SourceContext := None; OperationContext := None; GitHub := None |}.

Record createDeploymentRequest := {
  Settings : DeploymentSettings;   (* the embedded DeploymentSettings *)
  InheritSettings : bool;
  Operation : string }.

Record createStackRequest := {
  StackName : string }.

Record operationStatus := {
  Kind : string;
  Author : string;
  Started : Z }.

Record getStackResponse := {
  CurrentOperation : option operationStatus }.

Record organizationSummary := {
  GitHubLogin : string }.

Record getUserResponse := {
  Organizations : list organizationSummary }.

Record createSiteRequest := {
  create_ID : string;
  create_Content : string }.

Record updateSiteRequest := {
  update_Content : string }.

Record getSiteResponse := {
  site_ID : string;
  site_URL : string;       (* json:"url,omitempty" *)
  site_Status : string }.  (* json:"status,omitempty" *)

(** The parts of the [apitype] package that [get] reads. *)
Record UntypedDeployment := {
  Version : Z;
  Deployment : string }.   (* json.RawMessage *)

Record ResourceV3 := {
  Type_ : string;
  Outputs : gmap string any }.

Record DeploymentV3 := {
  Resources : list ResourceV3 }.

(** ** The outbound HTTP client *)

Inductive method := GET | POST | DELETE.

(** The value handed to resty's [SetBody]. *)
Inductive payload : Type :=
| NoBody
| StackBody (b : createStackRequest)
| SettingsBody (b : DeploymentSettings)
| DeploymentBody (b : createDeploymentRequest).

Record Request := {
  Method : method;
  URL : string;
  Header : list (string * string);
  Body : payload;
  DoNotParseResponse : bool }.

(** A resty response through its three accessors. *)
Record Response := {
  StatusCode : Z;
  RespBody : string;    (* resp.Body() *)
  RawBody : string }.   (* the stream behind resp.RawBody() *)

Definition StatusAccepted : Z := 202.

(** The remote API is any state machine that answers a request with a
    response or with a transport error. *)
Class Transport (Remote : Type) :=
  execute : Remote → Request → Remote * result Response.

(** The library functions the handlers call, none of which is part of the
    repository: the [encoding/json] codecs at the types used, [path.Join],
    and the schema version constant of [apitype]. *)
Class Library := {
  decode_createSiteRequest : string → result createSiteRequest;
  decode_updateSiteRequest : string → result updateSiteRequest;
  decode_getStackResponse : string → result getStackResponse;
  decode_UntypedDeployment : string → result UntypedDeployment;
  unmarshal_DeploymentV3 : string → result DeploymentV3;
  decode_getUserResponse : string → result getUserResponse;
  marshal_getSiteResponse : getSiteResponse → result string;
  path_Join : list string → string;
  DeploymentSchemaVersionCurrent : Z }.

Definition pulumiURL : string := "https://api.pat.pulumi-dev.io/api".

(** ** The inbound side: [http.ResponseWriter], [http.Request], router parameters *)

(** [code = None] until the header is written; the server then sends 200. *)
Record ResponseWriter := {
  code : option Z;
  written : string }.

Definition freshWriter : ResponseWriter := {| code := None; written := EmptyString |}.

Definition WriteHeader (c : Z) (w : ResponseWriter) : ResponseWriter :=
  match code w with
  | None => {| code := Some c; written := written w |}
  | Some _ => w
  end.

Definition Write (s : string) (w : ResponseWriter) : ResponseWriter :=
  {| code := Some (default 200 (code w)); written := written w +:+ s |}.

(** The status line the caller receives. *)
Definition statusOf (w : ResponseWriter) : Z := default 200 (code w).

Record HttpRequest := {
  req_Body : string }.

(** [httprouter.Params.ByName]: the first parameter of that name, or the empty string. *)
Fixpoint ByName (name : string) (ps : list (string * string)) : string :=
  match ps with
  | [] => EmptyString
  | (k, v) :: ps' => if decide (k = name) then v else ByName name ps'
  end.

(** A call that either returns or ends the goroutine in a run-time panic. *)
Inductive outcome (A : Type) : Type :=
| Returned (a : A)
| Panicked (reason : string).
Arguments Returned {A} a.
Arguments Panicked {A} reason.

(** The command line after [flag.Parse] (main.go lines 365-374). *)
Record Flags := {
  flag_repo : string;
  flag_branch : string;
  flag_dir : string;
  flag_role_arn : string;
  flag_session_name : string;
  flag_token : string;
  flag_org : string;
  flag_project : string;
  flag_addr : string }.

(** The router table of main.go lines 429-433, after httprouter has matched
    the method and the path and bound [:id]. *)
Inductive route : Type :=
| PostSites                  (* POST   /sites     *)
| GetSite (id : string)      (* GET    /sites/:id *)
| PostSite (id : string)     (* POST   /sites/:id *)
| DeleteSite (id : string).  (* DELETE /sites/:id *)

Definition newline : string := String (Ascii.ascii_of_nat 10) EmptyString.

Section Service.
Context `{Library} {Remote : Type} `{!Transport Remote}.

(** ** The world a handler runs in *)

Record World := {
  remote : Remote;
  trace : list (Request * result Response);   (* outbound exchanges, oldest first *)
  logged : list string }.                     (* lines given to the log package *)

Definition M (A : Type) : Type := World → A * World.

Definition ret {A} (a : A) : M A := λ wd, (a, wd).

Definition bind {A B} (m : M A) (k : A → M B) : M B :=
  λ wd, let '(a, wd') := m wd in k a wd'.

Notation "'do' x <- m ; k" := (bind m (λ x, k))
  (at level 10, x name, m at level 100, k at level 200, only parsing).
Notation "m ;; k" := (bind m (λ _, k))
  (at level 100, k at level 200, only parsing).

(** One round trip of the resty client. *)
Definition send (req : Request) : M (result Response) :=
  λ wd, let '(rm, reply) := execute (remote wd) req in
        (reply, {| remote := rm;
                   trace := trace wd ++ [(req, reply)];
                   logged := logged wd |}).

(** [log.Printf] with the formatted line. *)
Definition log_Printf (line : string) : M unit :=
  λ wd, (tt, {| remote := remote wd;
                trace := trace wd;
                logged := logged wd ++ [line] |}).

(** [json.NewEncoder(w).Encode(v)]: marshal, then write the document and a
    newline; a marshalling error is returned and nothing is written. *)
Definition Encode (w : ResponseWriter) (v : getSiteResponse)
  : ResponseWriter * option string :=
  match marshal_getSiteResponse v with
  | Ok doc => (Write (doc +:+ newline) w, None)
  | Err e => (w, Some e)
  end.

(** main.go lines 103-107. *)
Definition internalServerError (w : ResponseWriter) (err : string) : M ResponseWriter :=
  let w := WriteHeader 500 w in
  let w := Write "Internal Server Error" w in
  log_Printf ("Internal Server Error: " +:+ err) ;;
  ret w.

(** main.go lines 109-122; the resty client lives in the [World]. *)
Record siteServer := {
  repository : string;
  branch : string;
  dir : string;
  roleARN : string;
  sessionName : string;
  apiToken : string;
  org : string;
  project : string }.

Definition authHeaders (s : siteServer) : list (string * string) :=
  [("Authorization", "token " +:+ apiToken s); ("Accept", "application/json")].

(** ** Outbound requests, as the handlers build them *)

(** The body of [updateStack]'s request (lines 127-137). *)
Definition updateRequestBody (content : string) : createDeploymentRequest :=
  {| Settings :=
       {| SourceContext := None;
          OperationContext :=
            Some {| Environment := {[ "SITE_CONTENT" := content ]};
                    OIDC := None |};
          GitHub := None |};
     InheritSettings := true;
     Operation := "update" |}.

Definition updateStackCall (s : siteServer) (stack content : string) : Request :=
  {| Method := POST;
     URL := pulumiURL +:+ path_Join ["/preview"; org s; project s; stack; "deployments"];
     Header := authHeaders s;
     Body := DeploymentBody (updateRequestBody content);
     DoNotParseResponse := false |}.

(** main.go lines 124-148. *)
Definition updateStack (s : siteServer) (stack content : string) : M (option string) :=
  do r <- send (updateStackCall s stack content);
  match r with
  | Err err => ret (Some err)
  | Ok resp =>
      if decide (StatusCode resp ≠ StatusAccepted)
      then ret (Some (RespBody resp))
      else ret None
  end.

Definition createStackCall (s : siteServer) (stack : string) : Request :=
  {| Method := POST;
     URL := pulumiURL +:+ path_Join ["/stacks"; org s; project s];
     Header := authHeaders s;
     Body := StackBody {| StackName := stack |};
     DoNotParseResponse := false |}.

(** The settings bundle of lines 176-205. *)
Definition createSettings (s : siteServer) : DeploymentSettings :=
  let paths := if decide (dir s ≠ EmptyString) then [dir s +:+ "/**"] else [] in
  {| SourceContext :=
       Some {| Git := {| Branch := branch s; RepoDir := dir s |} |};
     OperationContext :=
       Some {| Environment := {[ "AWS_REGION" := "us-west-2" ]};
               OIDC := Some {| AWS := Some {| RoleARN := roleARN s;
                                              SessionName := sessionName s |} |} |};
     GitHub :=
       Some {| Repository := repository s;
               Paths := paths;
               DeployCommits := true;
               PreviewPullRequests := false |} |}.

Definition settingsCall (s : siteServer) (stack : string) : Request :=
  {| Method := POST;
     URL := pulumiURL +:+
            path_Join ["/preview"; org s; project s; stack; "deployment"; "settings"];
     Header := authHeaders s;
     Body := SettingsBody (createSettings s);
     DoNotParseResponse := false |}.

(** main.go lines 150-230. *)
Definition create (s : siteServer) (r : HttpRequest) (_ : list (string * string))
    (w : ResponseWriter) : M ResponseWriter :=
  match decode_createSiteRequest (req_Body r) with
  | Err _ =>
      let w := WriteHeader 400 w in
      let w := Write "failed to parse create request" w in
      ret w
  | Ok create =>
      let stack := create_ID create in
      do r1 <- send (createStackCall s stack);
      match r1 with
      | Err err => internalServerError w ("creating stack: " +:+ err)
      | Ok resp =>
          if decide (StatusCode resp ≠ 200 ∧ StatusCode resp ≠ 409)
          then internalServerError w ("creating stack: " +:+ RespBody resp)
          else
            log_Printf ("created stack '" +:+ org s +:+ "/" +:+ project s
                        +:+ "/" +:+ stack +:+ "'") ;;
            do r2 <- send (settingsCall s stack);
            match r2 with
            | Err err => internalServerError w ("configuring deployment: " +:+ err)
            | Ok resp =>
                if decide (StatusCode resp ≠ 200)
                then internalServerError w
                       ("configuring deployment: " +:+ RespBody resp)
                else
                  do e <- updateStack s stack (create_Content create);
                  match e with
                  | Some err =>
                      internalServerError w ("starting deployment: " +:+ err)
                  | None =>
                      let w := WriteHeader StatusAccepted w in
                      let '(w, e) :=
                        Encode w {| site_ID := stack; site_URL := EmptyString;
                                    site_Status := EmptyString |} in
                      match e with
                      | Some err =>
                          log_Printf ("writing response: " +:+ err) ;; ret w
                      | None => ret w
                      end
                  end
            end
      end
  end.

(** main.go lines 323-339. *)
Definition update (s : siteServer) (r : HttpRequest) (params : list (string * string))
    (w : ResponseWriter) : M ResponseWriter :=
  let id := ByName "id" params in
  match decode_updateSiteRequest (req_Body r) with
  | Err _ =>
      let w := WriteHeader 400 w in
      let w := Write "failed to parse update request" w in
      ret w
  | Ok update =>
      do e <- updateStack s id (update_Content update);
      match e with
      | Some err => internalServerError w ("starting deployment: " +:+ err)
      | None => ret (WriteHeader StatusAccepted w)
      end
  end.

Definition destroyCall (s : siteServer) (id : string) : Request :=
  {| Method := POST;
     URL := pulumiURL +:+ path_Join ["/preview"; org s; project s; id; "deployments"];
     Header := authHeaders s;
     Body := DeploymentBody {| Settings := zeroDeploymentSettings;
                               InheritSettings := true;
                               Operation := "destroy" |};
     DoNotParseResponse := false |}.

(** main.go lines 341-362. *)
Definition delete (s : siteServer) (r : HttpRequest) (params : list (string * string))
    (w : ResponseWriter) : M ResponseWriter :=
  let id := ByName "id" params in
  do r1 <- send (destroyCall s id);
  match r1 with
  | Err err => internalServerError w ("starting deployment: " +:+ err)
  | Ok resp =>
      if decide (StatusCode resp ≠ StatusAccepted)
      then internalServerError w ("starting deployment: " +:+ RespBody resp)
      else ret (WriteHeader StatusAccepted w)
  end.

(** ** Reading a site *)

Definition getStackCall (s : siteServer) (id : string) : Request :=
  {| Method := GET;
     URL := pulumiURL +:+ path_Join ["/stacks"; org s; project s; id];
     Header := authHeaders s;
     Body := NoBody;
     DoNotParseResponse := true |}.

(** The first closure of [get] (lines 235-255). *)
Definition getOperation (s : siteServer) (id : string)
  : M (result (option operationStatus)) :=
  do r <- send (getStackCall s id);
  match r with
  | Err err => ret (Err err)
  | Ok resp =>
      if decide (StatusCode resp ≠ 200)
      then ret (Err (RespBody resp))
      else
        match decode_getStackResponse (RawBody resp) with
        | Err err => ret (Err err)
        | Ok respBody => ret (Ok (CurrentOperation respBody))
        end
  end.

(** Lines 260-267. *)
Definition statusOfOperation (operation : option operationStatus) : string :=
  match operation with
  | None => "IDLE"
  | Some operation =>
      if decide (Kind operation = "destroy") then "DELETING" else "UPDATING"
  end.

Definition exportCall (s : siteServer) (id : string) : Request :=
  {| Method := GET;
     URL := pulumiURL +:+ path_Join ["/stacks"; org s; project s; id; "export"];
     Header := authHeaders s;
     Body := NoBody;
     DoNotParseResponse := true |}.

(** The loop of lines 295-301: the first resource of the root stack type. *)
Fixpoint findStackResource (resources : list ResourceV3) : option ResourceV3 :=
  match resources with
  | [] => None
  | r :: rest =>
      if decide (Type_ r = "pulumi:pulumi:Stack") then Some r
      else findStackResource rest
  end.

(** The second closure of [get] (lines 269-306).  A nil map and an empty
    map answer every index alike, so both are [∅]. *)
Definition getOutputs (s : siteServer) (id : string) : M (result (gmap string any)) :=
  do r <- send (exportCall s id);
  match r with
  | Err err => ret (Err err)
  | Ok resp =>
      if decide (StatusCode resp ≠ 200)
      then ret (Err (RespBody resp))
      else
        match decode_UntypedDeployment (RawBody resp) with
        | Err err => ret (Err err)
        | Ok respBody =>
            if decide (Version respBody ≠ DeploymentSchemaVersionCurrent)
            then ret (Ok ∅)
            else
              match unmarshal_DeploymentV3 (Deployment respBody) with
              | Err err => ret (Err ("unmarshaling deployment: " +:+ err))
              | Ok stack =>
                  match findStackResource (Resources stack) with
                  | None => ret (Ok ∅)
                  | Some stackResource => ret (Ok (Outputs stackResource))
                  end
              end
        end
  end.

(** main.go lines 232-321. *)
Definition get (s : siteServer) (r : HttpRequest) (params : list (string * string))
    (w : ResponseWriter) : M ResponseWriter :=
  let id := ByName "id" params in
  do op <- getOperation s id;
  match op with
  | Err err => internalServerError w ("getting stack: " +:+ err)
  | Ok operation =>
      let status := statusOfOperation operation in
      do out <- getOutputs s id;
      match out with
      | Err err => internalServerError w ("getting stack outputs: " +:+ err)
      | Ok outputs =>
          let '(url, _) := assert_string (outputs !! "websiteUrl") in
          let resp := {| site_ID := id; site_URL := url; site_Status := status |} in
          let '(w, e) := Encode w resp in
          match e with
          | Some err => log_Printf ("encoding response: " +:+ err) ;; ret w
          | None => ret w
          end
      end
  end.

(** ** Startup *)

Definition userCall (token : string) : Request :=
  {| Method := GET;
     URL := pulumiURL +:+ "/user";
     Header := [("Authorization", "token " +:+ token); ("Accept", "application/json")];
     Body := NoBody;
     DoNotParseResponse := true |}.

(** The closure of lines 392-411.  Indexing [body.Organizations[0]] on an
    empty slice is a run-time panic. *)
Definition defaultOrg (token : string) : M (outcome (result string)) :=
  do r <- send (userCall token);
  match r with
  | Err err => ret (Returned (Err err))
  | Ok resp =>
      if decide (StatusCode resp ≠ 200)
      then ret (Returned (Err (pretty (StatusCode resp) +:+ ": " +:+ RespBody resp)))
      else
        match decode_getUserResponse (RawBody resp) with
        | Err err => ret (Returned (Err ("decoding response: " +:+ err)))
        | Ok body =>
            match Organizations body !! 0%nat with
            | Some first => ret (Returned (Ok (GitHubLogin first)))
            | None => ret (Panicked "index out of range [0] with length 0")
            end
        end
  end.

(** How [main] leaves its set-up phase. *)
Inductive Startup : Type :=
| Fatal (line : string)                     (* log.Fatal: logged, exit status 1 *)
| Crashed (reason : string)                 (* unrecovered panic *)
| Serving (s : siteServer) (addr : string). (* http.ListenAndServe *)

Definition serverOf (f : Flags) (org : string) : siteServer :=
  {| repository := flag_repo f;
     branch := flag_branch f;
     dir := flag_dir f;
     roleARN := flag_role_arn f;
     sessionName := flag_session_name f;
     apiToken := flag_token f;
     org := org;
     project := flag_project f |}.

(** main.go lines 364-436, up to the call of [http.ListenAndServe]. *)
Definition main (f : Flags) : M Startup :=
  if decide (flag_repo f = EmptyString) then ret (Fatal "the -repo flag is required")
  else if decide (flag_role_arn f = EmptyString) then ret (Fatal "the -role-arn flag is required")
  else if decide (flag_token f = EmptyString) then ret (Fatal "the -token flag is required")
  else if decide (flag_project f = EmptyString) then ret (Fatal "the -project flag is required")
  else if decide (flag_org f = EmptyString) then
    do d <- defaultOrg (flag_token f);
    match d with
    | Panicked reason => ret (Crashed reason)
    | Returned (Err err) => ret (Fatal ("getting default organization: " +:+ err))
    | Returned (Ok defaultOrg) => ret (Serving (serverOf f defaultOrg) (flag_addr f))
    end
  else ret (Serving (serverOf f (flag_org f)) (flag_addr f)).

(** The outbound calls of [create], in the order of the source text
    (lines 160, 206 and 221). *)
Definition createPlan (s : siteServer) (c : createSiteRequest) : list Request :=
  [ createStackCall s (create_ID c);
    settingsCall s (create_ID c);
    updateStackCall s (create_ID c) (create_Content c) ].

(** The routes registered in [main] (lines 429-433). *)
Definition dispatch (s : siteServer) (rt : route) (r : HttpRequest) (w : ResponseWriter)
  : M ResponseWriter :=
  match rt with
  | PostSites => create s r [] w
  | GetSite id => get s r [("id", id)] w
  | PostSite id => update s r [("id", id)] w
  | DeleteSite id => delete s r [("id", id)] w
  end.

(** Serving one request: the handler runs against the remote in state
    [rm] with a fresh writer; the world it returns holds exactly the
    exchanges and log lines of this request. *)
Definition startWorld (rm : Remote) : World :=
  {| remote := rm; trace := []; logged := [] |}.

Definition serve (s : siteServer) (rt : route) (r : HttpRequest) (rm : Remote)
  : ResponseWriter * World :=
  dispatch s rt r freshWriter (startWorld rm).

End Service.

(** ** Vocabulary of the statements *)

(** The answers a step takes as success: stack registration 200 or 409
    (line 170), every other call one status (lines 144, 216, 357). *)
Definition accepts (req : Request) (resp : Response) : bool :=
  match Body req with
  | StackBody _ => bool_decide (StatusCode resp = 200 ∨ StatusCode resp = 409)
  | SettingsBody _ => bool_decide (StatusCode resp = 200)
  | DeploymentBody _ => bool_decide (StatusCode resp = StatusAccepted)
  | NoBody => bool_decide (StatusCode resp = 200)
  end.

(** An exchange that makes its step fail: a transport error or an answer the
    step does not accept. *)
Definition failed (e : Request * result Response) : bool :=
  match e.2 with
  | Err _ => true
  | Ok resp => negb (accepts e.1 resp)
  end.

(** [attempts plan t]: the exchanges [t] carry out the calls of [plan] in
    order, each call made only when the ones before it did not fail, and
    nothing made after a failure. *)
Inductive attempts : list Request → list (Request * result Response) → Prop :=
| attempts_all : attempts [] []
| attempts_stop req plan reply :
    failed (req, reply) = true →
    attempts (req :: plan) [(req, reply)]
| attempts_next req plan reply t :
    failed (req, reply) = false →
    attempts plan t →
    attempts (req :: plan) ((req, reply) :: t).

(** The prefix under which a write step reports its failure. *)
Definition stepName (req : Request) : option string :=
  match Body req with
  | StackBody _ => Some "creating stack"
  | SettingsBody _ => Some "configuring deployment"
  | DeploymentBody _ => Some "starting deployment"
  | NoBody => None
  end.

Definition isWrite (rt : route) : bool :=
  match rt with
  | GetSite _ => false
  | _ => true
  end.

Definition is_Err {A} (r : result A) : Prop :=
  match r with
  | Err _ => True
  | Ok _ => False
  end.

(** An answer to the stack lookup of [get] that the first closure turns
    into a current operation: status 200 and a body that decodes. *)
Definition stackReadable `{Library} (reply : result Response) : Prop :=
  match reply with
  | Ok resp => StatusCode resp = 200
               ∧ ¬ is_Err (decode_getStackResponse (RawBody resp))
  | Err _ => False
  end.

(** An answer to the export call of [get] that the second closure turns
    into an output map: status 200, a body that decodes, and, when it is of
    the current schema version, a deployment that unmarshals. *)
Definition exportReadable `{Library} (reply : result Response) : Prop :=
  match reply with
  | Ok resp =>
      StatusCode resp = 200
      ∧ match decode_UntypedDeployment (RawBody resp) with
        | Ok ud => Version ud = DeploymentSchemaVersionCurrent →
                   ¬ is_Err (unmarshal_DeploymentV3 (Deployment ud))
        | Err _ => False
        end
  | Err _ => False
  end.

(** The prefix under which a handler reports the failure of its call
    number [i] (counted from 0): lines 167-171, 213-217 and 222 for create,
    257 and 308 for get, 334 for update, 354-358 for delete. *)
Definition stepLabel (rt : route) (i : nat) : option string :=
  match rt, i with
  | PostSites, 0%nat => Some "creating stack"
  | PostSites, 1%nat => Some "configuring deployment"
  | PostSites, 2%nat => Some "starting deployment"
  | GetSite _, 0%nat => Some "getting stack"
  | GetSite _, 1%nat => Some "getting stack outputs"
  | PostSite _, 0%nat => Some "starting deployment"
  | DeleteSite _, 0%nat => Some "starting deployment"
  | _, _ => None
  end.

Fixpoint hasPrefix (p line : string) : bool :=
  match p with
  | EmptyString => true
  | String a p' =>
      match line with
      | String b line' => Ascii.eqb a b && hasPrefix p' line'
      | EmptyString => false
      end
  end.

(** A log line written by [internalServerError]. *)
Definition isErrorLine (line : string) : bool :=
  hasPrefix "Internal Server Error: " line.

(** The url member is left out of the document when the field is empty
    ([omitempty]). *)
Definition urlOmitted (v : getSiteResponse) : Prop := site_URL v = EmptyString.

(** ** A worked setting: scripted remote, sample documents *)

Module Sample.

Definition q : string := String (Ascii.ascii_of_nat 34) EmptyString.
Definition quoted (s : string) : string := q +:+ s +:+ q.
Definition member (k v : string) : string := quoted k +:+ ":" +:+ v.

(** Inbound bodies. *)
Definition createBody : string :=
  "{" +:+ member "id" (quoted "blog") +:+ "," +:+ member "content" (quoted "hello") +:+ "}".
Definition updateBody : string :=
  "{" +:+ member "content" (quoted "hello again") +:+ "}".
Definition brokenBody : string := "{" +:+ quoted "id" +:+ ":".

(** Bodies of the remote API. *)
Definition idleStack : string := "{}".
Definition destroyingStack : string :=
  "{" +:+ member "currentOperation"
            ("{" +:+ member "kind" (quoted "destroy") +:+ "}") +:+ "}".
Definition previewingStack : string :=
  "{" +:+ member "currentOperation"
            ("{" +:+ member "kind" (quoted "preview") +:+ "}") +:+ "}".
Definition rootWithUrl : string :=
  "{" +:+ member "resources"
    ("[{" +:+ member "type" (quoted "aws:s3/bucket:Bucket") +:+ "},{"
          +:+ member "type" (quoted "pulumi:pulumi:Stack") +:+ ","
          +:+ member "outputs"
                ("{" +:+ member "websiteUrl" (quoted "http://blog.example") +:+ "}")
          +:+ "}]") +:+ "}".
Definition rootWithNumber : string :=
  "{" +:+ member "resources"
    ("[{" +:+ member "type" (quoted "pulumi:pulumi:Stack") +:+ ","
          +:+ member "outputs" ("{" +:+ member "websiteUrl" "8080" +:+ "}")
          +:+ "}]") +:+ "}".
Definition noRoot : string :=
  "{" +:+ member "resources"
    ("[{" +:+ member "type" (quoted "aws:s3/bucket:Bucket") +:+ "}]") +:+ "}".
Definition export (version deployment : string) : string :=
  "{" +:+ member "version" version +:+ "," +:+ member "deployment" deployment +:+ "}".
Definition noOrganizations : string :=
  "{" +:+ member "organizations" "[]" +:+ "}".
Definition oneOrganization : string :=
  "{" +:+ member "organizations"
            ("[{" +:+ member "githubLogin" (quoted "acme") +:+ "}]") +:+ "}".

Definition syntaxError {A} : result A := Err "unexpected end of JSON input".

(** [path.Join] on segments that are already clean: the non-empty ones,
    separated by slashes. *)
Fixpoint joinClean (segments : list string) : string :=
  match segments with
  | [] => EmptyString
  | x :: rest =>
      if decide (x = EmptyString) then joinClean rest
      else match joinClean rest with
           | EmptyString => x
           | tail => x +:+ "/" +:+ tail
           end
  end.

(** The document [encoding/json] writes for a [getSiteResponse] whose
    strings need no escaping. *)
Definition siteDocument (v : getSiteResponse) : string :=
  "{" +:+ member "id" (quoted (site_ID v))
  +:+ (if decide (site_URL v = EmptyString) then EmptyString
       else "," +:+ member "url" (quoted (site_URL v)))
  +:+ (if decide (site_Status v = EmptyString) then EmptyString
       else "," +:+ member "status" (quoted (site_Status v)))
  +:+ "}".

(** What [encoding/json] and [path.Join] do on the documents above; every
    other body is taken as a syntax error. *)
Definition library : Library :=
  {| decode_createSiteRequest body :=
       if decide (body = createBody)
       then Ok {| create_ID := "blog"; create_Content := "hello" |}
       else syntaxError;
     decode_updateSiteRequest body :=
       if decide (body = updateBody)
       then Ok {| update_Content := "hello again" |}
       else syntaxError;
     decode_getStackResponse body :=
       if decide (body = idleStack) then Ok {| CurrentOperation := None |}
       else if decide (body = destroyingStack)
       then Ok {| CurrentOperation :=
                    Some {| Kind := "destroy"; Author := EmptyString; Started := 0 |} |}
       else if decide (body = previewingStack)
       then Ok {| CurrentOperation :=
                    Some {| Kind := "preview"; Author := EmptyString; Started := 0 |} |}
       else syntaxError;
     decode_UntypedDeployment body :=
       if decide (body = export "3" rootWithUrl)
       then Ok {| Version := 3; Deployment := rootWithUrl |}
       else if decide (body = export "3" rootWithNumber)
       then Ok {| Version := 3; Deployment := rootWithNumber |}
       else if decide (body = export "3" noRoot)
       then Ok {| Version := 3; Deployment := noRoot |}
       else if decide (body = export "2" rootWithUrl)
       then Ok {| Version := 2; Deployment := rootWithUrl |}
       else syntaxError;
     unmarshal_DeploymentV3 doc :=
       if decide (doc = rootWithUrl)
       then Ok {| Resources :=
                    [ {| Type_ := "aws:s3/bucket:Bucket"; Outputs := ∅ |};
                      {| Type_ := "pulumi:pulumi:Stack";
                         Outputs := {[ "websiteUrl" := JString "http://blog.example" ]} |} ] |}
       else if decide (doc = rootWithNumber)
       then Ok {| Resources :=
                    [ {| Type_ := "pulumi:pulumi:Stack";
                         Outputs := {[ "websiteUrl" := JNumber "8080" ]} |} ] |}
       else if decide (doc = noRoot)
       then Ok {| Resources := [ {| Type_ := "aws:s3/bucket:Bucket"; Outputs := ∅ |} ] |}
       else syntaxError;
     decode_getUserResponse body :=
       if decide (body = noOrganizations) then Ok {| Organizations := [] |}
       else if decide (body = oneOrganization)
       then Ok {| Organizations := [ {| GitHubLogin := "acme" |} ] |}
       else syntaxError;
     marshal_getSiteResponse v := Ok (siteDocument v);
     path_Join := joinClean;
     DeploymentSchemaVersionCurrent := 3 |}.

(** A remote that plays back a list of answers, one per call; when the
    list is used up the connection fails. *)
Definition Script : Type := list (result Response).

Definition scripted : Transport Script :=
  λ rm _, match rm with
          | [] => ([], Err "connection refused")
          | reply :: rest => (rest, reply)
          end.

Definition answer (status : Z) (body : string) : result Response :=
  Ok {| StatusCode := status; RespBody := body; RawBody := body |}.

(** The answer to a call made with [SetDoNotParseResponse(true)]: resty
    leaves the stream unread, so [Body()] is empty. *)
Definition stream (status : Z) (body : string) : result Response :=
  Ok {| StatusCode := status; RespBody := EmptyString; RawBody := body |}.

Definition server : siteServer :=
  {| repository := "acme/sites";
     branch := "main";
     dir := "site";
     roleARN := "arn:aws:iam::1:role/deploy";
     sessionName := "site-deploy";
     apiToken := "secret";
     org := "acme";
     project := "sites" |}.

Definition flags : Flags :=
  {| flag_repo := "acme/sites";
     flag_branch := "main";
     flag_dir := "site";
     flag_role_arn := "arn:aws:iam::1:role/deploy";
     flag_session_name := "site-deploy";
     flag_token := "secret";
     flag_org := EmptyString;
     flag_project := "sites";
     flag_addr := ":8080" |}.

Definition run (rt : route) (body : string) (script : Script) : ResponseWriter * World :=
  serve (H := library) (Transport0 := scripted) server rt {| req_Body := body |} script.

Definition inbound (body : string) : HttpRequest := {| req_Body := body |}.

Definition ok200 : Response :=
  {| StatusCode := 200; RespBody := "{}"; RawBody := "{}" |}.
Definition ok202 : Response :=
  {| StatusCode := 202; RespBody := "{}"; RawBody := "{}" |}.
Definition conflict : Response :=
  {| StatusCode := 409; RespBody := "stack exists"; RawBody := "stack exists" |}.
Definition quota : Response :=
  {| StatusCode := 500; RespBody := "quota exceeded"; RawBody := "quota exceeded" |}.

Definition blog : createSiteRequest :=
  {| create_ID := "blog"; create_Content := "hello" |}.

(** One more inbound body, an update that repeats the content of
    [createBody], and the library that reads it as well. *)
Definition helloBody : string :=
  "{" +:+ member "content" (quoted "hello") +:+ "}".

Definition libraryWithHello : Library :=
  {| decode_createSiteRequest := @decode_createSiteRequest library;
     decode_updateSiteRequest body :=
       if decide (body = helloBody) then Ok {| update_Content := "hello" |}
       else @decode_updateSiteRequest library body;
     decode_getStackResponse := @decode_getStackResponse library;
     decode_UntypedDeployment := @decode_UntypedDeployment library;
     unmarshal_DeploymentV3 := @unmarshal_DeploymentV3 library;
     decode_getUserResponse := @decode_getUserResponse library;
     marshal_getSiteResponse := @marshal_getSiteResponse library;
     path_Join := @path_Join library;
     DeploymentSchemaVersionCurrent := @DeploymentSchemaVersionCurrent library |}.

End Sample.

(** ** Properties of the handlers *)

Section Properties.
Context `{Library} {Remote : Type} `{!Transport Remote}.

Implicit Types (s : siteServer) (r : HttpRequest) (rm : Remote) (w : ResponseWriter).
Implicit Types (wd : @World Remote).

Lemma ByName_id (id : string) : ByName "id" [("id", id)] = id.
Proof. unfold ByName. by rewrite decide_True. Qed.

(** What a call of [updateStack] does to the world, and the error it
    returns. *)
Lemma updateStack_run s (stack content : string) wd :
  ∃ rm' reply,
    execute (remote wd) (updateStackCall s stack content) = (rm', reply) ∧
    updateStack s stack content wd
    = (match reply with
       | Err err => Some err
       | Ok resp => if accepts (updateStackCall s stack content) resp
                    then None else Some (RespBody resp)
       end,
       {| remote := rm';
          trace := trace wd ++ [(updateStackCall s stack content, reply)];
          logged := logged wd |}).
Proof.
  unfold updateStack, bind, send.
  destruct (execute _ _) as [rm' [resp|err]]; exists rm'; eexists; split; try done.
  unfold accepts, ret; simpl.
  destruct (decide _) as [Hne|Heq].
  - by rewrite bool_decide_eq_false_2.
  - apply dec_stable in Heq. by rewrite bool_decide_eq_true_2.
Qed.

(** Unfolding one request down to the calls of the remote. *)
Ltac unfold_run :=
  unfold serve, dispatch, create, update, delete, get, getOperation, getOutputs,
    updateStack, internalServerError, Encode, bind, ret, send, log_Printf,
    startWorld;
  rewrite ?ByName_id; cbn [remote trace logged fst snd app].

(** Case analysis on the next answer of the remote or the next test. *)
Ltac next_case :=
  match goal with
  | |- context [execute ?rm ?q] =>
      let Hx := fresh "Hexec" in
      destruct (execute rm q) as [? [?|?]] eqn:Hx
  | |- context [decide ?P] => destruct (decide P)
  | |- context [marshal_getSiteResponse ?v] => destruct (marshal_getSiteResponse v)
  end;
  cbn [remote trace logged fst snd app].

(** C5: a create or update request whose body does not decode is answered
    400 with the parse-failure message of its handler, and the handler
    makes no outbound call (nor writes a log line). *)
Theorem malformed_body_is_rejected s r rm :
  (is_Err (decode_createSiteRequest (req_Body r)) →
     serve s PostSites r rm
     = ({| code := Some 400; written := "failed to parse create request" |},
        startWorld rm)
     ∧ trace (serve s PostSites r rm).2 = [])
  ∧ (∀ id, is_Err (decode_updateSiteRequest (req_Body r)) →
     serve s (PostSite id) r rm
     = ({| code := Some 400; written := "failed to parse update request" |},
        startWorld rm)
     ∧ trace (serve s (PostSite id) r rm).2 = []).
Proof.
  split; [|intros id]; unfold_run.
  - destruct (decode_createSiteRequest _); [done|]. by intros _.
  - destruct (decode_updateSiteRequest _); [done|]. by intros _.
Qed.

(** Turning [failed] and [accepts] on a concrete exchange into the test
    of the status code. *)
Ltac exchange_facts :=
  unfold failed, accepts, StatusAccepted in *; cbn [fst snd Body] in *;
  unfold createStackCall, settingsCall, updateStackCall, destroyCall in *;
  cbn [fst snd Body] in *;
  rewrite ?negb_true_iff, ?negb_false_iff,
    ?bool_decide_eq_true, ?bool_decide_eq_false in *.

(** Closing a branch in which an exchange failed although none is
    supposed to have. *)
Ltac no_failure :=
  exfalso; decompose_Forall_hyps; exchange_facts; (discriminate || tauto).

(** C6: a write request that decodes and whose remote calls are all
    accepted is answered 202; create writes the JSON document of the site
    id (and a newline), update and delete write nothing. *)
Theorem accepted_write_answers_202 s r rm :
  (∀ c doc,
     decode_createSiteRequest (req_Body r) = Ok c →
     Forall (λ e, failed e = false) (trace (serve s PostSites r rm).2) →
     marshal_getSiteResponse
       {| site_ID := create_ID c; site_URL := EmptyString; site_Status := EmptyString |}
     = Ok doc →
     (serve s PostSites r rm).1 = {| code := Some 202; written := doc +:+ newline |})
  ∧ (∀ id u,
     decode_updateSiteRequest (req_Body r) = Ok u →
     Forall (λ e, failed e = false) (trace (serve s (PostSite id) r rm).2) →
     (serve s (PostSite id) r rm).1 = {| code := Some 202; written := EmptyString |})
  ∧ (∀ id,
     Forall (λ e, failed e = false) (trace (serve s (DeleteSite id) r rm).2) →
     (serve s (DeleteSite id) r rm).1 = {| code := Some 202; written := EmptyString |}).
Proof.
  split; [|split].
  - intros c doc Hdec. unfold_run. rewrite Hdec.
    repeat next_case; intros Hall Hdoc; try by no_failure.
    by simplify_eq.
  - intros id u Hdec. unfold_run. rewrite Hdec.
    repeat next_case; intros Hall; try by no_failure.
    done.
  - intros id. unfold_run.
    repeat next_case; intros Hall; try by no_failure.
    done.
Qed.

(** C7: the one outbound request of an update carries
    [InheritSettings = true], the operation [update], an operation context
    whose environment is exactly [SITE_CONTENT = content] (and no OIDC
    block), no source context and no GitHub settings. *)
Theorem update_resends_no_settings s r rm id u :
  decode_updateSiteRequest (req_Body r) = Ok u →
  ∃ req reply b oc,
    trace (serve s (PostSite id) r rm).2 = [(req, reply)]
    ∧ Body req = DeploymentBody b
    ∧ InheritSettings b = true
    ∧ Operation b = "update"
    ∧ OperationContext (Settings b) = Some oc
    ∧ Environment oc = {[ "SITE_CONTENT" := update_Content u ]}
    ∧ OIDC oc = None
    ∧ SourceContext (Settings b) = None
    ∧ GitHub (Settings b) = None.
Proof.
  intros Hdec. unfold_run. rewrite Hdec.
  exists (updateStackCall s id (update_Content u)).
  repeat next_case; eexists _, _, _; repeat split; reflexivity.
Qed.

(** Membership in an explicit trace, one exchange at a time. *)
Ltac pick_exchange Hin :=
  repeat (apply elem_of_cons in Hin as [Hin|Hin]; [simplify_eq|]);
  try (by apply elem_of_nil in Hin).

Ltac rejected_cases :=
  repeat next_case;
  let Hin := fresh "Hin" in
  let Hrej := fresh "Hrej" in
  intros Hin Hrej; pick_exchange Hin;
  try (exfalso; exchange_facts; (discriminate || tauto));
  (split; [reflexivity | eexists; split; reflexivity]).

(** C4 (amended): during a create, update or delete request, every answer
    of the remote that its step does not accept (stack registration takes
    200 and 409, settings configuration 200, starting a deployment 202)
    makes the handler answer 500 with the fixed text
    "Internal Server Error", the upstream body going to the log only. *)
Theorem rejected_answer_surfaces_as_500 s rt r rm req resp :
  isWrite rt = true →
  (req, Ok resp) ∈ trace (serve s rt r rm).2 →
  accepts req resp = false →
  (serve s rt r rm).1 = {| code := Some 500; written := "Internal Server Error" |}
  ∧ ∃ step, stepName req = Some step
      ∧ last (logged (serve s rt r rm).2)
        = Some ("Internal Server Error: " +:+ step +:+ ": " +:+ RespBody resp).
Proof.
  intros Hw. destruct rt as [|id|id|id]; [|done|..]; clear Hw; unfold_run.
  - destruct (decode_createSiteRequest _) as [c|e];
      [|intros Hin; by apply elem_of_nil in Hin].
    rejected_cases.
  - destruct (decode_updateSiteRequest _) as [u|e];
      [|intros Hin; by apply elem_of_nil in Hin].
    rejected_cases.
  - rejected_cases.
Qed.

(** How create answers once its body has decoded: 500 when one of the
    three steps failed, 202 when none did. *)
Lemma create_answer_by_steps s r rm c :
  decode_createSiteRequest (req_Body r) = Ok c →
  (code (serve s PostSites r rm).1 = Some 500
   ↔ Exists (λ e, failed e = true) (trace (serve s PostSites r rm).2))
  ∧ (code (serve s PostSites r rm).1 = Some 202
     ↔ Forall (λ e, failed e = false) (trace (serve s PostSites r rm).2)).
Proof.
  intros Hdec. split.
  - unfold_run. rewrite Hdec.
    repeat next_case; rewrite ?Exists_cons, Exists_nil; exchange_facts;
      cbn [code Write WriteHeader freshWriter default from_option id];
      intuition (try discriminate; try lia).
  - unfold_run. rewrite Hdec.
    repeat next_case; rewrite ?Forall_cons, Forall_nil; exchange_facts;
      cbn [code Write WriteHeader freshWriter default from_option id];
      intuition (try discriminate; try lia).
Qed.

(** C2 (amended): for every create request, a 409 answer to the stack
    registration call is taken as a 200 answer is: the handler goes on to
    configure the settings, and its response, its log and the calls that
    follow are those of the run in which the registration answered 200.
    The handler answers 500 only when one of its steps has failed: the
    registration for another reason than a conflict, the settings
    configuration, or the start of the deployment. *)
Theorem create_conflict_is_success s r :
  (∀ rmA rmB rm1 req respA respB,
     trace (serve s PostSites r rmA).2 !! 0%nat = Some (req, Ok respA) →
     StatusCode respA = 409 →
     execute rmA req = (rm1, Ok respA) →
     execute rmB req = (rm1, Ok respB) →
     StatusCode respB = 200 →
     (serve s PostSites r rmA).1 = (serve s PostSites r rmB).1
     ∧ logged (serve s PostSites r rmA).2 = logged (serve s PostSites r rmB).2
     ∧ tail (trace (serve s PostSites r rmA).2) = tail (trace (serve s PostSites r rmB).2)
     ∧ ∃ c reply, decode_createSiteRequest (req_Body r) = Ok c
                  ∧ req = createStackCall s (create_ID c)
                  ∧ trace (serve s PostSites r rmA).2 !! 1%nat
                    = Some (settingsCall s (create_ID c), reply))
  ∧ (∀ rm, code (serve s PostSites r rm).1 = Some 500 →
           Exists (λ e, failed e = true) (trace (serve s PostSites r rm).2)).
Proof.
  split.
  - intros rmA rmB rm1 req respA respB.
    destruct (decode_createSiteRequest (req_Body r)) as [c|e] eqn:Hdec;
      [|unfold_run; by rewrite Hdec].
    assert (req = createStackCall s (create_ID c) →
            StatusCode respA = 409 →
            execute rmA req = (rm1, Ok respA) →
            execute rmB req = (rm1, Ok respB) →
            StatusCode respB = 200 →
            (serve s PostSites r rmA).1 = (serve s PostSites r rmB).1
            ∧ logged (serve s PostSites r rmA).2 = logged (serve s PostSites r rmB).2
            ∧ tail (trace (serve s PostSites r rmA).2)
              = tail (trace (serve s PostSites r rmB).2)
            ∧ ∃ c' reply, Ok c = Ok c'
                ∧ req = createStackCall s (create_ID c')
                ∧ trace (serve s PostSites r rmA).2 !! 1%nat
                  = Some (settingsCall s (create_ID c'), reply)) as Hsame.
    { intros -> H409 HA HB H200.
      unfold_run. rewrite Hdec. cbn [remote]. rewrite HA, HB.
      rewrite !decide_False by lia. cbn [remote trace logged fst snd app].
      repeat next_case; repeat split; eauto. }
    intros Hfirst. apply Hsame. revert Hfirst.
    unfold_run. rewrite Hdec.
    repeat next_case; cbn [lookup list_lookup]; intros Hfirst; by simplify_eq.
  - intros rm.
    destruct (decode_createSiteRequest (req_Body r)) as [c|e] eqn:Hdec.
    + by apply create_answer_by_steps with (c := c).
    + unfold_run. by rewrite Hdec.
Qed.

(** *** Runs that stop at the first failure *)

Lemma attempts_prefix plan t :
  attempts plan t → t.*1 `prefix_of` plan.
Proof.
  induction 1 as [|req plan reply Hfail|req plan reply t Hok _ IH]; cbn.
  - done.
  - by exists plan.
  - by apply prefix_cons.
Qed.

Lemma attempts_failure_is_last plan t (i : nat) e :
  attempts plan t → t !! i = Some e → failed e = true → length t = S i.
Proof.
  intros Hrun. revert i.
  induction Hrun as [|req plan reply Hfail|req plan reply t Hok _ IH];
    intros [|i] Hi Hfailed; simplify_eq/=; try done.
  - congruence.
  - f_equal. by apply IH.
Qed.

Lemma attempts_complete plan t :
  attempts plan t → Forall (λ e, failed e = false) t → t.*1 = plan.
Proof.
  induction 1 as [|req plan reply Hfail|req plan reply t Hok _ IH];
    intros Hall; cbn.
  - done.
  - apply Forall_cons in Hall as [Hnot _]. congruence.
  - apply Forall_cons in Hall as [_ Hall]. f_equal. by apply IH.
Qed.

Lemma attempts_within plan t :
  attempts plan t → Forall (λ e, e.1 ∈ plan) t.
Proof.
  induction 1 as [|req plan reply Hfail|req plan reply t Hok _ IH].
  - constructor.
  - constructor; [apply list_elem_of_here|constructor].
  - constructor; [apply list_elem_of_here|].
    eapply Forall_impl; [exact IH|]. intros e He. by apply list_elem_of_further.
Qed.

(** The three steps of [create] form such a run. *)
Lemma create_attempts s r rm c :
  decode_createSiteRequest (req_Body r) = Ok c →
  attempts (createPlan s c) (trace (serve s PostSites r rm).2).
Proof.
  intros Hdec. unfold_run. rewrite Hdec. unfold createPlan.
  repeat next_case;
    repeat first
      [ apply attempts_all
      | apply attempts_stop; exchange_facts; (done || lia)
      | apply attempts_next; [exchange_facts; (done || lia)|] ].
Qed.

(** C9: create makes its outbound calls in the order registration,
    settings, deployment start; an exchange that fails is the last one of
    the request, so no call at all (and none that destroys or unregisters)
    follows a failure; when nothing fails all three calls are made.  A
    body that does not decode leads to no call. *)
Theorem create_attempts_no_rollback s r rm :
  match decode_createSiteRequest (req_Body r) with
  | Err _ => trace (serve s PostSites r rm).2 = []
  | Ok c =>
      (trace (serve s PostSites r rm).2).*1 `prefix_of` createPlan s c
      ∧ (∀ i e, trace (serve s PostSites r rm).2 !! i = Some e →
                failed e = true →
                length (trace (serve s PostSites r rm).2) = S i)
      ∧ (Forall (λ e, failed e = false) (trace (serve s PostSites r rm).2) →
         (trace (serve s PostSites r rm).2).*1 = createPlan s c)
  end
  ∧ Forall (λ e, Method e.1 = POST
                 ∧ ∀ b, Body e.1 = DeploymentBody b → Operation b = "update")
           (trace (serve s PostSites r rm).2).
Proof.
  destruct (decode_createSiteRequest (req_Body r)) as [c|err] eqn:Hdec.
  - pose proof (create_attempts s r rm c Hdec) as Hrun.
    split; [split; [|split]|].
    + by apply attempts_prefix.
    + intros i e. by apply attempts_failure_is_last with (plan := createPlan s c).
    + by apply attempts_complete.
    + eapply Forall_impl; [by apply attempts_within with (plan := createPlan s c)|].
      intros [req reply] Hin. unfold createPlan in Hin. cbn [fst] in *.
      pick_exchange Hin; (split; [done|]); cbn; intros b Hb; by simplify_eq.
  - unfold_run. by rewrite Hdec.
Qed.

(** *** Reading a site *)

Lemma findStackResource_none (resources : list ResourceV3) :
  Forall (λ x, Type_ x ≠ "pulumi:pulumi:Stack") resources →
  findStackResource resources = None.
Proof.
  induction 1 as [|x rest Hx _ IH]; [done|].
  simpl. by rewrite decide_False.
Qed.

Lemma findStackResource_first (before after : list ResourceV3) (root : ResourceV3) :
  Forall (λ x, Type_ x ≠ "pulumi:pulumi:Stack") before →
  Type_ root = "pulumi:pulumi:Stack" →
  findStackResource (before ++ root :: after) = Some root.
Proof.
  intros Hbefore Hroot.
  induction Hbefore as [|x rest Hx _ IH]; simpl.
  - by rewrite decide_True.
  - by rewrite decide_False.
Qed.

Lemma statusOf_Encode (v : getSiteResponse) :
  statusOf (Encode freshWriter v).1 = 200.
Proof. unfold Encode. by destruct (marshal_getSiteResponse v). Qed.

(** Unfolding and case analysis along the two closures of [get]; the
    encoder stays folded. *)
Ltac unfold_get :=
  unfold serve, dispatch, get, getOperation, getOutputs, internalServerError,
    bind, ret, send, log_Printf, startWorld;
  rewrite ?ByName_id; cbn [remote trace logged fst snd app].

Ltac get_case :=
  first
    [ next_case
    | match goal with
      | |- context [decode_getStackResponse ?b] =>
          let Hd := fresh "Hstack" in
          destruct (decode_getStackResponse b) eqn:Hd
      | |- context [match decode_UntypedDeployment ?b with _ => _ end] =>
          let Hd := fresh "Hexport" in
          destruct (decode_UntypedDeployment b) eqn:Hd
      | |- context [match unmarshal_DeploymentV3 ?b with _ => _ end] =>
          let Hd := fresh "Hdeployment" in
          destruct (unmarshal_DeploymentV3 b) eqn:Hd
      | |- context [match findStackResource ?l with _ => _ end] =>
          let Hd := fresh "Hroot" in
          destruct (findStackResource l) eqn:Hd
      | |- context [assert_string ?x] =>
          let Hd := fresh "Hurl" in
          destruct (assert_string x) as [? ?] eqn:Hd
      | |- context [Encode ?w ?v] =>
          let Hd := fresh "Hdoc" in
          destruct (Encode w v) as [? [?|]] eqn:Hd
      end; cbn [remote trace logged fst snd app] ].

(** Two results of one library call are the same result. *)
Ltac same_result :=
  repeat match goal with
    | Ha : ?e = Ok _, Hb : ?e = Ok _ |- _ => rewrite Ha in Hb; simplify_eq
    | Ha : ?e = Ok _, Hb : ?e = Err _ |- _ => rewrite Ha in Hb; discriminate
    end.

(** C1: when both remote calls of a get succeed, the handler answers with
    the document of a site whose status comes from the current operation
    of the stack response alone: IDLE without one, DELETING for the kind
    "destroy", UPDATING for any other kind. *)
Theorem get_status_from_current_operation s r rm id resp1 resp2 sr ud :
  trace (serve s (GetSite id) r rm).2
    = [(getStackCall s id, Ok resp1); (exportCall s id, Ok resp2)] →
  StatusCode resp1 = 200 →
  decode_getStackResponse (RawBody resp1) = Ok sr →
  StatusCode resp2 = 200 →
  decode_UntypedDeployment (RawBody resp2) = Ok ud →
  (Version ud = DeploymentSchemaVersionCurrent →
   ¬ is_Err (unmarshal_DeploymentV3 (Deployment ud))) →
  ∃ v, (serve s (GetSite id) r rm).1 = (Encode freshWriter v).1
       ∧ site_ID v = id
       ∧ (CurrentOperation sr = None → site_Status v = "IDLE")
       ∧ (∀ op, CurrentOperation sr = Some op → Kind op = "destroy" →
                site_Status v = "DELETING")
       ∧ (∀ op, CurrentOperation sr = Some op → Kind op ≠ "destroy" →
                site_Status v = "UPDATING").
Proof.
  unfold_get.
  repeat get_case; intros Htrace H1 Hsr H2 Hud Hdep; simplify_eq; same_result.
  all: try (exfalso; apply Hdep; [by apply dec_stable|];
         match goal with Hd : _ = Err _ |- _ => by rewrite Hd end).
  all: eexists; (split; [by erewrite Hdoc|]).
  all: cbn [site_ID site_Status]; unfold statusOfOperation.
  all: split; [done|]; split; [by intros ->|].
  all: split; intros op -> Hkind; [by rewrite decide_True|by rewrite decide_False].
Qed.

Lemma assert_string_not_string (x : option any) :
  (x = None ∨ ∃ y, x = Some y ∧ ∀ u, y ≠ JString u) →
  assert_string x = (EmptyString, false).
Proof.
  intros [->|(y & -> & Hy)]; [done|].
  destruct y; try done. by destruct (Hy s).
Qed.

(** The last lines of [get]: the response is the document of the site
    that was assembled, and it is never an error response. *)
Ltac get_answer Hdoc :=
  match type of Hdoc with
  | Encode ?w ?v = (?w', _) =>
      exists v; split; [by rewrite Hdoc|]; split; [done|]; split;
      [ | replace w' with (Encode w v).1 by (by rewrite Hdoc);
          apply statusOf_Encode ]
  end.

(** C3: when both remote calls of a get answer 200 and the export either
    carries another schema version than the one the service reads, or
    lists no resource of type "pulumi:pulumi:Stack", the handler answers
    200 with the document of the site, the url left out. *)
Theorem get_omits_url_without_root s r rm id resp1 resp2 ud :
  trace (serve s (GetSite id) r rm).2
    = [(getStackCall s id, Ok resp1); (exportCall s id, Ok resp2)] →
  StatusCode resp1 = 200 →
  StatusCode resp2 = 200 →
  decode_UntypedDeployment (RawBody resp2) = Ok ud →
  (Version ud ≠ DeploymentSchemaVersionCurrent
   ∨ ∃ d, unmarshal_DeploymentV3 (Deployment ud) = Ok d
          ∧ Forall (λ x, Type_ x ≠ "pulumi:pulumi:Stack") (Resources d)) →
  ∃ v, (serve s (GetSite id) r rm).1 = (Encode freshWriter v).1
       ∧ site_ID v = id
       ∧ urlOmitted v
       ∧ statusOf (serve s (GetSite id) r rm).1 = 200.
Proof.
  unfold_get.
  repeat get_case; intros Htrace H1 H2 Hud Hcase; simplify_eq; same_result.
  all: try (destruct Hcase as [Hver|(d & Hd & Hnone)]; [done|]; same_result;
            apply findStackResource_none in Hnone; congruence).
  all: try (rewrite lookup_empty in Hurl; simplify_eq/=).
  all: get_answer Hdoc; done.
Qed.

(** C10: on a get whose two remote calls succeed and whose export has a
    root stack resource, an output map without the key "websiteUrl", or
    with a value there that is not a string, leaves the url out of the
    document; the handler still answers 200. *)
Theorem get_omits_url_without_string_output
    s r rm id resp1 resp2 ud d (before after : list ResourceV3) (root : ResourceV3) :
  trace (serve s (GetSite id) r rm).2
    = [(getStackCall s id, Ok resp1); (exportCall s id, Ok resp2)] →
  StatusCode resp1 = 200 →
  StatusCode resp2 = 200 →
  decode_UntypedDeployment (RawBody resp2) = Ok ud →
  Version ud = DeploymentSchemaVersionCurrent →
  unmarshal_DeploymentV3 (Deployment ud) = Ok d →
  Resources d = (before ++ root :: after)%list →
  Forall (λ x, Type_ x ≠ "pulumi:pulumi:Stack") before →
  Type_ root = "pulumi:pulumi:Stack" →
  (Outputs root !! "websiteUrl" = None
   ∨ ∃ x, Outputs root !! "websiteUrl" = Some x ∧ ∀ u, x ≠ JString u) →
  ∃ v, (serve s (GetSite id) r rm).1 = (Encode freshWriter v).1
       ∧ site_ID v = id
       ∧ urlOmitted v
       ∧ statusOf (serve s (GetSite id) r rm).1 = 200.
Proof.
  unfold_get.
  repeat get_case;
    intros Htrace H1 H2 Hud Hver Hd Hres Hbefore Hroot' Hout;
    simplify_eq; same_result.
  all: pose proof (findStackResource_first before after root Hbefore Hroot') as Hfirst;
    rewrite <- Hres in Hfirst; same_result; try congruence.
  all: rewrite Hfirst in *; simplify_eq.
  all: rewrite (assert_string_not_string _ Hout) in Hurl; simplify_eq.
  all: get_answer Hdoc; done.
Qed.

(** *** The handlers only add to the trace and to the log *)

(** A handler reads nothing of the exchanges and log lines that are already
    in the world: run in any world, it does what it does in the world that
    holds the same remote and nothing else, and appends. *)
Lemma dispatch_frame s rt r w wd :
  dispatch s rt r w wd
  = ((dispatch s rt r w (startWorld (remote wd))).1,
     {| remote := remote (dispatch s rt r w (startWorld (remote wd))).2;
        trace := trace wd ++ trace (dispatch s rt r w (startWorld (remote wd))).2;
        logged := logged wd ++ logged (dispatch s rt r w (startWorld (remote wd))).2 |}).
Proof.
  destruct wd as [rm t l].
  destruct rt as [|id|id|id]; unfold_get; unfold create, update, delete, updateStack,
    internalServerError, bind, ret, send, log_Printf;
    cbv beta iota delta [remote trace logged]; cbn [fst snd app].
  - destruct (decode_createSiteRequest _);
      repeat get_case; rewrite ?app_nil_r, <- ?app_assoc; reflexivity.
  - repeat get_case; rewrite ?app_nil_r, <- ?app_assoc; reflexivity.
  - destruct (decode_updateSiteRequest _);
      repeat get_case; rewrite ?app_nil_r, <- ?app_assoc; reflexivity.
  - repeat get_case; rewrite ?app_nil_r, <- ?app_assoc; reflexivity.
Qed.


(** *** Startup *)

Ltac unfold_main f :=
  unfold main, defaultOrg, bind, ret, send, startWorld;
  rewrite (decide_False (P := flag_repo f = EmptyString)) by done;
  rewrite (decide_False (P := flag_role_arn f = EmptyString)) by done;
  rewrite (decide_False (P := flag_token f = EmptyString)) by done;
  rewrite (decide_False (P := flag_project f = EmptyString)) by done;
  rewrite (decide_True (P := flag_org f = EmptyString)) by done;
  cbn [remote trace logged fst snd app].

Section Lookup.
Variable f : Flags.
Hypothesis Hrepo : flag_repo f ≠ EmptyString.
Hypothesis Hrole : flag_role_arn f ≠ EmptyString.
Hypothesis Htoken : flag_token f ≠ EmptyString.
Hypothesis Hproject : flag_project f ≠ EmptyString.
Hypothesis Horg : flag_org f = EmptyString.

(** X13: with a non-empty list of organizations the first one becomes the
    organization of the server. *)
Lemma startup_uses_first_organization rm rm' resp body first rest :
  execute rm (userCall (flag_token f)) = (rm', Ok resp) →
  StatusCode resp = 200 →
  decode_getUserResponse (RawBody resp) = Ok body →
  Organizations body = first :: rest →
  (main f (startWorld rm)).1 = Serving (serverOf f (GitHubLogin first)) (flag_addr f).
Proof.
  intros Hexec H200 Hbody Horgs. unfold_main f.
  rewrite Hexec. rewrite decide_False by (by intros []).
  by rewrite Hbody, Horgs.
Qed.

(** X12: the fatal exit is taken exactly when the lookup fails in
    transport, is answered with another status than 200, or does not
    decode. *)
Lemma startup_fatal_iff_lookup_fails rm rm' reply :
  execute rm (userCall (flag_token f)) = (rm', reply) →
  (∃ line, (main f (startWorld rm)).1 = Fatal line)
  ↔ match reply with
    | Err _ => True
    | Ok resp => StatusCode resp ≠ 200
                 ∨ is_Err (decode_getUserResponse (RawBody resp))
    end.
Proof.
  intros Hexec. unfold_main f. rewrite Hexec.
  destruct reply as [resp|err]; [|by split; eauto].
  destruct (decide _) as [Hne|Heq]; [by split; eauto|].
  destruct (decode_getUserResponse _) as [body|err]; cbn;
    [|split; [by right | by eauto]].
  destruct (Organizations body !! 0%nat); cbn;
    (split; [by intros [line ?] | by intros [?|[]]]).
Qed.

(** An empty list of organizations, though the lookup succeeded, ends the
    process in the index panic of line 410. *)
Lemma startup_crashes_on_empty_list rm rm' resp body :
  execute rm (userCall (flag_token f)) = (rm', Ok resp) →
  StatusCode resp = 200 →
  decode_getUserResponse (RawBody resp) = Ok body →
  Organizations body = [] →
  (main f (startWorld rm)).1 = Crashed "index out of range [0] with length 0".
Proof.
  intros Hexec H200 Hbody Horgs. unfold_main f.
  rewrite Hexec. rewrite decide_False by (by intros []).
  by rewrite Hbody, Horgs.
Qed.

End Lookup.


(** ** Further properties of the handlers and of the startup *)

(** Case analysis along any handler. *)
Ltac any_case :=
  first
    [ get_case
    | match goal with
      | |- context [match decode_createSiteRequest ?b with _ => _ end] =>
          let Hd := fresh "Hcreate" in
          destruct (decode_createSiteRequest b) eqn:Hd
      | |- context [match decode_updateSiteRequest ?b with _ => _ end] =>
          let Hd := fresh "Hupdate" in
          destruct (decode_updateSiteRequest b) eqn:Hd
      end; cbn [remote trace logged fst snd app] ].

(** X1: every outbound call of every handler carries the configured token
    in its Authorization header, and asks for JSON. *)
Theorem every_call_carries_the_token s rt r rm :
  Forall (λ e, Header e.1 = [ ("Authorization", "token " +:+ apiToken s);
                              ("Accept", "application/json") ])
         (trace (serve s rt r rm).2).
Proof.
  destruct rt as [|id|id|id]; unfold_run; repeat any_case; repeat constructor.
Qed.

(** X2: the status a caller can receive, by route: 202, 400 or 500 from
    create and update, 202 or 500 from delete, 200 or 500 from get. *)
Theorem status_codes_by_route s rt r rm :
  match rt with
  | PostSites | PostSite _ =>
      statusOf (serve s rt r rm).1 = 202 ∨ statusOf (serve s rt r rm).1 = 400
      ∨ statusOf (serve s rt r rm).1 = 500
  | DeleteSite _ =>
      statusOf (serve s rt r rm).1 = 202 ∨ statusOf (serve s rt r rm).1 = 500
  | GetSite _ =>
      statusOf (serve s rt r rm).1 = 200 ∨ statusOf (serve s rt r rm).1 = 500
  end.
Proof.
  destruct rt as [|id|id|id]; unfold_run; repeat any_case; cbn; auto.
Qed.

(** X16: no handler repeats or adds calls: create makes at most three
    outbound calls, get at most two, update at most one, delete exactly
    one. *)
Theorem outbound_calls_are_bounded s rt r rm :
  match rt with
  | PostSites => (length (trace (serve s rt r rm).2) ≤ 3)%nat
  | GetSite _ => (length (trace (serve s rt r rm).2) ≤ 2)%nat
  | PostSite _ => (length (trace (serve s rt r rm).2) ≤ 1)%nat
  | DeleteSite _ => length (trace (serve s rt r rm).2) = 1%nat
  end.
Proof.
  destruct rt as [|id|id|id]; unfold_run; repeat any_case; cbn; lia.
Qed.


Lemma isErrorLine_error (detail : string) :
  isErrorLine ("Internal Server Error: " +:+ detail) = true.
Proof. reflexivity. Qed.

Lemma isErrorLine_created (rest : string) :
  isErrorLine ("created stack '" +:+ rest) = false.
Proof. reflexivity. Qed.

Lemma isErrorLine_writing (err : string) :
  isErrorLine ("writing response: " +:+ err) = false.
Proof. reflexivity. Qed.

Lemma isErrorLine_encoding (err : string) :
  isErrorLine ("encoding response: " +:+ err) = false.
Proof. reflexivity. Qed.

(** X3: for every route, the handler answers 500 exactly when it has
    written an "Internal Server Error: ..." line to the log, and the body
    of a 500 answer is the fixed text and nothing else. *)
Theorem server_error_iff_logged s rt r rm :
  (code (serve s rt r rm).1 = Some 500
   ↔ Exists (λ line, isErrorLine line = true) (logged (serve s rt r rm).2))
  ∧ (code (serve s rt r rm).1 = Some 500 →
     written (serve s rt r rm).1 = "Internal Server Error").
Proof.
  destruct rt as [|site|site|site]; unfold_run; repeat any_case;
    rewrite ?Exists_cons, Exists_nil,
      ?isErrorLine_error, ?isErrorLine_created, ?isErrorLine_writing,
      ?isErrorLine_encoding;
    unfold StatusAccepted; cbn [code written Write WriteHeader freshWriter default from_option id];
    (split; [split|]); try done; try tauto; intuition discriminate.
Qed.

(** X4: on every route, a call that fails in transport ends the request:
    it is the last exchange, the caller gets 500 with the fixed text, and
    the transport error goes to the log under the label of that very step
    (of the call at that position on that route). *)
Theorem transport_failure_surfaces_as_500 s rt r rm (i : nat) req (err : string) :
  trace (serve s rt r rm).2 !! i = Some (req, Err err) →
  (serve s rt r rm).1 = {| code := Some 500; written := "Internal Server Error" |}
  ∧ length (trace (serve s rt r rm).2) = S i
  ∧ last (trace (serve s rt r rm).2) = Some (req, Err err)
  ∧ ∃ step, stepLabel rt i = Some step
      ∧ last (logged (serve s rt r rm).2)
        = Some ("Internal Server Error: " +:+ step +:+ ": " +:+ err).
Proof.
  destruct rt as [|site|site|site]; unfold_run; repeat any_case;
    destruct i as [|[|[|i]]]; cbn [lookup list_lookup]; intros Hi; simplify_eq;
    (split; [reflexivity|]); (split; [reflexivity|]); (split; [reflexivity|]);
    eexists; (split; [reflexivity|]); reflexivity.
Qed.

(** X5: delete always makes exactly one outbound call, a POST whose body
    asks for the operation "destroy" with inherited settings and carries no
    settings of its own; the body of the inbound request is never read. *)
Theorem delete_sends_one_destroy_request s r rm (site : string) :
  (∃ req reply b,
     trace (serve s (DeleteSite site) r rm).2 = [(req, reply)]
     ∧ Method req = POST
     ∧ Body req = DeploymentBody b
     ∧ InheritSettings b = true
     ∧ Operation b = "destroy"
     ∧ SourceContext (Settings b) = None
     ∧ OperationContext (Settings b) = None
     ∧ GitHub (Settings b) = None)
  ∧ ∀ r', serve s (DeleteSite site) r' rm = serve s (DeleteSite site) r rm.
Proof.
  split; [|done].
  unfold_run. exists (destroyCall s site).
  repeat next_case; eexists _, _; repeat split; reflexivity.
Qed.

(** X6: get only reads: its outbound calls are the stack lookup and then
    the export, in that order, each a GET without a body; at least the
    lookup is always made. *)
Theorem get_only_reads s r rm (site : string) :
  (trace (serve s (GetSite site) r rm).2).*1
    `prefix_of` [getStackCall s site; exportCall s site]
  ∧ trace (serve s (GetSite site) r rm).2 ≠ []
  ∧ Forall (λ e, Method e.1 = GET ∧ Body e.1 = NoBody)
           (trace (serve s (GetSite site) r rm).2).
Proof.
  unfold_run; repeat any_case; (split; [|split]); try done;
    try (repeat constructor; fail);
    cbn [fmap list_fmap fst]; (by eexists) || apply prefix_cons, prefix_cons, prefix_nil.
Qed.


(** X9: the loop over the exported resources returns the first resource of
    type "pulumi:pulumi:Stack" (resources before it are of other types),
    and returns nothing exactly when no resource has that type. *)
Theorem findStackResource_spec (resources : list ResourceV3) :
  match findStackResource resources with
  | Some root =>
      ∃ before after,
        resources = (before ++ root :: after)%list
        ∧ Forall (λ x, Type_ x ≠ "pulumi:pulumi:Stack") before
        ∧ Type_ root = "pulumi:pulumi:Stack"
  | None => Forall (λ x, Type_ x ≠ "pulumi:pulumi:Stack") resources
  end.
Proof.
  induction resources as [|x rest IH]; cbn [findStackResource]; [constructor|].
  destruct (decide (Type_ x = "pulumi:pulumi:Stack")) as [Hx|Hx].
  - exists [], rest. by repeat split.
  - destruct (findStackResource rest) as [root|].
    + destruct IH as (before & after & -> & Hbefore & Hroot).
      exists (x :: before), after. repeat split; [|done]. by constructor.
    + by constructor.
Qed.

(** X7: on a get whose two remote calls succeed, when the first resource of
    type "pulumi:pulumi:Stack" in the export has a string under the output
    "websiteUrl", the document of the site carries that string as its url. *)
Theorem get_reports_website_url
    s r rm (site : string) resp1 resp2 ud d
    (before after : list ResourceV3) (root : ResourceV3) (u : string) :
  trace (serve s (GetSite site) r rm).2
    = [(getStackCall s site, Ok resp1); (exportCall s site, Ok resp2)] →
  StatusCode resp1 = 200 →
  StatusCode resp2 = 200 →
  decode_UntypedDeployment (RawBody resp2) = Ok ud →
  Version ud = DeploymentSchemaVersionCurrent →
  unmarshal_DeploymentV3 (Deployment ud) = Ok d →
  Resources d = (before ++ root :: after)%list →
  Forall (λ x, Type_ x ≠ "pulumi:pulumi:Stack") before →
  Type_ root = "pulumi:pulumi:Stack" →
  Outputs root !! "websiteUrl" = Some (JString u) →
  ∃ v, (serve s (GetSite site) r rm).1 = (Encode freshWriter v).1
       ∧ site_ID v = site
       ∧ site_URL v = u
       ∧ statusOf (serve s (GetSite site) r rm).1 = 200.
Proof.
  unfold_get.
  repeat get_case;
    intros Htrace H1 H2 Hud Hver Hd Hres Hbefore Hroot' Hout;
    simplify_eq; same_result.
  all: pose proof (findStackResource_first before after root Hbefore Hroot') as Hfirst;
    rewrite <- Hres in Hfirst; same_result; try congruence.
  all: rewrite Hfirst in *; simplify_eq.
  all: rewrite Hout in Hurl; cbn in Hurl; simplify_eq.
  all: get_answer Hdoc; done.
Qed.

(** X8: get answers 500 exactly when the stack lookup or the export is not
    readable (transport failure, a status other than 200, a body that does
    not decode, or a deployment of the current schema version that does not
    unmarshal); the export is requested exactly when the lookup was
    readable. *)
Theorem get_fails_iff_unreadable s r rm (site : string) rm1 reply1 rm2 reply2 :
  execute rm (getStackCall s site) = (rm1, reply1) →
  execute rm1 (exportCall s site) = (rm2, reply2) →
  (code (serve s (GetSite site) r rm).1 = Some 500
   ↔ ¬ (stackReadable reply1 ∧ exportReadable reply2))
  ∧ (length (trace (serve s (GetSite site) r rm).2) = 2%nat ↔ stackReadable reply1).
Proof.
  intros Hfirst Hsecond. unfold_run. rewrite Hfirst.
  unfold stackReadable, exportReadable.
  destruct reply1 as [resp1|err1]; cbn [remote trace logged fst snd app];
    [|cbn; intuition discriminate].
  destruct (decide (StatusCode resp1 ≠ 200)) as [Hne1|Heq1];
    cbn [remote trace logged fst snd app]; [cbn; intuition discriminate|].
  apply dec_stable in Heq1.
  destruct (decode_getStackResponse (RawBody resp1)) as [sr|err1];
    cbn [remote trace logged fst snd app is_Err]; [|cbn; intuition discriminate].
  rewrite Hsecond.
  destruct reply2 as [resp2|err2]; cbn [remote trace logged fst snd app];
    [|cbn; intuition discriminate].
  destruct (decide (StatusCode resp2 ≠ 200)) as [Hne2|Heq2];
    cbn [remote trace logged fst snd app]; [cbn; intuition discriminate|].
  apply dec_stable in Heq2.
  destruct (decode_UntypedDeployment (RawBody resp2)) as [ud|err2];
    cbn [remote trace logged fst snd app]; [|cbn; intuition discriminate].
  destruct (decide (Version ud ≠ DeploymentSchemaVersionCurrent)) as [Hver|Hver];
    cbn [remote trace logged fst snd app].
  - repeat get_case; cbn; intuition discriminate.
  - apply dec_stable in Hver.
    destruct (unmarshal_DeploymentV3 (Deployment ud)) as [d|err3];
      cbn [remote trace logged fst snd app is_Err].
    + repeat get_case; cbn; intuition discriminate.
    + cbn; intuition discriminate.
Qed.


(** X10: [main] checks the required flags before anything else, in the
    order repo, role-arn, token, project: the first one that is empty
    decides the fatal message, and no call to the remote is made, whether
    or not an organization is configured. *)
Theorem startup_checks_flags_first (f : Flags) wd :
  (flag_repo f = EmptyString →
     main f wd = (Fatal "the -repo flag is required", wd))
  ∧ (flag_repo f ≠ EmptyString → flag_role_arn f = EmptyString →
     main f wd = (Fatal "the -role-arn flag is required", wd))
  ∧ (flag_repo f ≠ EmptyString → flag_role_arn f ≠ EmptyString →
     flag_token f = EmptyString →
     main f wd = (Fatal "the -token flag is required", wd))
  ∧ (flag_repo f ≠ EmptyString → flag_role_arn f ≠ EmptyString →
     flag_token f ≠ EmptyString → flag_project f = EmptyString →
     main f wd = (Fatal "the -project flag is required", wd)).
Proof.
  unfold main, ret. repeat split; intros;
    repeat first [ rewrite decide_True by done | rewrite decide_False by done ];
    reflexivity.
Qed.

(** X11: with the required flags set and an organization configured, [main]
    makes no call to the remote and serves with the flag values as they
    are. *)
Theorem startup_with_configured_org (f : Flags) wd :
  flag_repo f ≠ EmptyString →
  flag_role_arn f ≠ EmptyString →
  flag_token f ≠ EmptyString →
  flag_project f ≠ EmptyString →
  flag_org f ≠ EmptyString →
  main f wd
  = (Serving {| repository := flag_repo f;
                branch := flag_branch f;
                dir := flag_dir f;
                roleARN := flag_role_arn f;
                sessionName := flag_session_name f;
                apiToken := flag_token f;
                org := flag_org f;
                project := flag_project f |}
             (flag_addr f),
     wd).
Proof.
  intros. unfold main, ret. by rewrite !decide_False by done.
Qed.

(** X14: the second call of create configures the stack from the server's
    static configuration alone: git branch and directory, the AWS region
    and the OIDC role, and GitHub settings that deploy on commits, do not
    preview pull requests and filter on [dir/**] exactly when a directory
    is configured.  Nothing of the request (the content least of all) is
    part of it. *)
Theorem create_settings_request s r rm req reply :
  trace (serve s PostSites r rm).2 !! 1%nat = Some (req, reply) →
  ∃ st src oc gh,
    Body req = SettingsBody st
    ∧ SourceContext st = Some src
    ∧ Git src = {| Branch := branch s; RepoDir := dir s |}
    ∧ OperationContext st = Some oc
    ∧ Environment oc = {[ "AWS_REGION" := "us-west-2" ]}
    ∧ OIDC oc = Some {| AWS := Some {| RoleARN := roleARN s;
                                        SessionName := sessionName s |} |}
    ∧ GitHub st = Some gh
    ∧ Repository gh = repository s
    ∧ DeployCommits gh = true
    ∧ PreviewPullRequests gh = false
    ∧ (dir s = EmptyString → Paths gh = [])
    ∧ (dir s ≠ EmptyString → Paths gh = [dir s +:+ "/**"]).
Proof.
  unfold_run. unfold settingsCall, createSettings.
  destruct (decode_createSiteRequest _) as [c|e]; [|done].
  repeat match goal with
    | |- context [execute ?rm ?q] =>
        destruct (execute rm q) as [? [?|?]]; cbn [remote trace logged fst snd app]
    | |- context [decide (StatusCode ?x ≠ ?n)] =>
        destruct (decide (StatusCode x ≠ n)); cbn [remote trace logged fst snd app]
    | |- context [decide (StatusCode ?x ≠ 200 ∧ StatusCode ?x ≠ 409)] =>
        destruct (decide (StatusCode x ≠ 200 ∧ StatusCode x ≠ 409));
        cbn [remote trace logged fst snd app]
    | |- context [marshal_getSiteResponse ?v] =>
        destruct (marshal_getSiteResponse v); cbn [remote trace logged fst snd app]
    end;
    cbn [lookup list_lookup]; intros Hsecond; simplify_eq;
    eexists _, _, _, _; cbn [Body];
    repeat (split; [reflexivity|]);
    (split; intros Hdir; cbn [Paths]; [by rewrite decide_False by (by intros [])
                                      | by rewrite decide_True]).
Qed.

(** X15: create writes the log line "created stack 'org/project/id'"
    exactly when the registration call was answered 200 or 409; the line
    is written for a stack that already existed too. *)
Theorem created_line_iff_registration_accepted s r rm c :
  decode_createSiteRequest (req_Body r) = Ok c →
  ("created stack '" +:+ org s +:+ "/" +:+ project s +:+ "/" +:+ create_ID c +:+ "'")
    ∈ logged (serve s PostSites r rm).2
  ↔ ∃ resp, trace (serve s PostSites r rm).2 !! 0%nat
            = Some (createStackCall s (create_ID c), Ok resp)
            ∧ (StatusCode resp = 200 ∨ StatusCode resp = 409).
Proof.
  intros Hdec. unfold_run. rewrite Hdec.
  repeat next_case; cbn [lookup list_lookup]; split.
  all: try (intros Hin; pick_exchange Hin; fail).
  all: try (intros (resp & Hresp & Hstatus); simplify_eq; lia).
  all: try (intros _; eexists; split; [reflexivity|lia]).
  all: try (intros _; apply list_elem_of_here).
Qed.


(** X17: the deployment that create starts is the one an update would
    start: the third call of a create for [(id, content)] is, request for
    request, the only call of an update of [id] with the same content. *)
Theorem create_deploys_as_update_does s r rm c req reply r' rm' u :
  decode_createSiteRequest (req_Body r) = Ok c →
  trace (serve s PostSites r rm).2 !! 2%nat = Some (req, reply) →
  decode_updateSiteRequest (req_Body r') = Ok u →
  update_Content u = create_Content c →
  ∃ reply', trace (serve s (PostSite (create_ID c)) r' rm').2 = [(req, reply')].
Proof.
  intros Hc Hthird Hu Hcontent. revert Hthird.
  unfold_run. rewrite Hc, Hu, Hcontent.
  repeat next_case; cbn [lookup list_lookup]; intros Hthird; simplify_eq;
    eexists; reflexivity.
Qed.


End Properties.

(** ** The properties at work on the scripted remote *)

Module Examples.
Import Sample.

(** *** The model on a few runs *)

(** A get during a preview: the url of the root resource and UPDATING. *)
Example get_reports_url_and_status :
  (run (GetSite "blog") EmptyString
     [stream 200 previewingStack; stream 200 (export "3" rootWithUrl)]).1
  = {| code := Some 200;
       written := siteDocument {| site_ID := "blog";
                                  site_URL := "http://blog.example";
                                  site_Status := "UPDATING" |} +:+ newline |}.
Proof. vm_compute. reflexivity. Qed.

(** A get whose export call is refused: the body of a response that resty
    was told not to parse is empty, so the log line carries no detail. *)
Example get_logs_empty_detail :
  run (GetSite "blog") EmptyString [stream 200 idleStack; stream 404 "no such stack"]
  = ({| code := Some 500; written := "Internal Server Error" |},
     {| remote := [];
        trace := [ (getStackCall (H := library) server "blog", stream 200 idleStack);
                   (exportCall (H := library) server "blog", stream 404 "no such stack") ];
        logged := ["Internal Server Error: getting stack outputs: "] |}).
Proof. vm_compute. reflexivity. Qed.

(** Startup without [-org]: the first organization of the user. *)
Example startup_resolves_first_organization :
  (main (H := library) (Transport0 := scripted) flags
     (startWorld [stream 200 oneOrganization])).1
  = Serving (serverOf flags "acme") ":8080".
Proof. vm_compute. reflexivity. Qed.

(** Startup without [-org] when the lookup is refused. *)
Example startup_fatal_on_refused_lookup :
  (main (H := library) (Transport0 := scripted) flags
     (startWorld [answer 401 "unauthorized"])).1
  = Fatal "getting default organization: 401: unauthorized".
Proof. vm_compute. reflexivity. Qed.


(** An update of "blog" refused by the remote. *)
Lemma rejected_answer_surfaces_as_500_witness :
  (run (PostSite "blog") updateBody [Ok quota]).1
  = {| code := Some 500; written := "Internal Server Error" |}
  ∧ ∃ step, stepName (updateStackCall (H := library) server "blog" "hello again") = Some step
      ∧ last (logged (run (PostSite "blog") updateBody [Ok quota]).2)
        = Some ("Internal Server Error: " +:+ step +:+ ": " +:+ "quota exceeded").
Proof.
  apply (rejected_answer_surfaces_as_500 (H := library) (Transport0 := scripted)
           server (PostSite "blog") (inbound updateBody) [Ok quota]
           (updateStackCall (H := library) server "blog" "hello again") quota).
  - reflexivity.
  - vm_compute. constructor.
  - reflexivity.
Defined.

(** A get of "blog" while the stack is being destroyed. *)
Lemma get_status_from_current_operation_witness :
  ∃ v, (run (GetSite "blog") EmptyString
          [stream 200 destroyingStack; stream 200 (export "3" rootWithUrl)]).1
       = (Encode (H := library) freshWriter v).1
       ∧ site_ID v = "blog"
       ∧ site_Status v = "DELETING".
Proof.
  destruct (get_status_from_current_operation (H := library) (Transport0 := scripted)
              server (inbound EmptyString)
              [stream 200 destroyingStack; stream 200 (export "3" rootWithUrl)]
              "blog"
              {| StatusCode := 200; RespBody := EmptyString; RawBody := destroyingStack |}
              {| StatusCode := 200; RespBody := EmptyString;
                 RawBody := export "3" rootWithUrl |}
              {| CurrentOperation :=
                   Some {| Kind := "destroy"; Author := EmptyString; Started := 0 |} |}
              {| Version := 3; Deployment := rootWithUrl |})
    as (v & Hdoc & Hid & _ & Hdestroy & _).
  - vm_compute. reflexivity.
  - reflexivity.
  - vm_compute. reflexivity.
  - reflexivity.
  - vm_compute. reflexivity.
  - intros _. vm_compute. exact (λ x, x).
  - exists v. split; [exact Hdoc|]. split; [exact Hid|].
    exact (Hdestroy _ eq_refl eq_refl).
Defined.

(** Creating "blog" a second time: the registration answers 409. *)
Lemma create_conflict_is_success_witness :
  (run PostSites createBody [Ok conflict; Ok ok200; Ok ok202]).1
  = (run PostSites createBody [Ok ok200; Ok ok200; Ok ok202]).1
  ∧ logged (run PostSites createBody [Ok conflict; Ok ok200; Ok ok202]).2
    = logged (run PostSites createBody [Ok ok200; Ok ok200; Ok ok202]).2
  ∧ Exists (λ e, failed e = true)
           (trace (run PostSites createBody [Ok conflict; Ok quota]).2).
Proof.
  destruct (create_conflict_is_success (H := library) (Transport0 := scripted)
              server (inbound createBody)) as (Hsame & H500).
  destruct (Hsame [Ok conflict; Ok ok200; Ok ok202] [Ok ok200; Ok ok200; Ok ok202]
              [Ok ok200; Ok ok202] (createStackCall (H := library) server "blog")
              conflict ok200) as (Hw & Hlog & _); try reflexivity.
  split; [exact Hw|]. split; [exact Hlog|].
  apply (H500 [Ok conflict; Ok quota]). reflexivity.
Defined.

(** A get of "blog" whose export is in schema version 2. *)
Lemma get_omits_url_without_root_witness :
  ∃ v, (run (GetSite "blog") EmptyString
          [stream 200 idleStack; stream 200 (export "2" rootWithUrl)]).1
       = (Encode (H := library) freshWriter v).1
       ∧ site_ID v = "blog"
       ∧ urlOmitted v
       ∧ statusOf (run (GetSite "blog") EmptyString
                     [stream 200 idleStack; stream 200 (export "2" rootWithUrl)]).1 = 200.
Proof.
  apply (get_omits_url_without_root (H := library) (Transport0 := scripted)
           server (inbound EmptyString)
           [stream 200 idleStack; stream 200 (export "2" rootWithUrl)]
           "blog"
           {| StatusCode := 200; RespBody := EmptyString; RawBody := idleStack |}
           {| StatusCode := 200; RespBody := EmptyString;
              RawBody := export "2" rootWithUrl |}
           {| Version := 2; Deployment := rootWithUrl |}).
  - vm_compute. reflexivity.
  - reflexivity.
  - reflexivity.
  - vm_compute. reflexivity.
  - left. vm_compute. discriminate.
Defined.

(** A create and an update with a body cut short. *)
Lemma malformed_body_is_rejected_witness :
  (run PostSites brokenBody [Ok ok200; Ok ok200; Ok ok202]
   = ({| code := Some 400; written := "failed to parse create request" |},
      startWorld [Ok ok200; Ok ok200; Ok ok202])
   ∧ trace (run PostSites brokenBody [Ok ok200; Ok ok200; Ok ok202]).2 = [])
  ∧ (run (PostSite "blog") brokenBody [Ok ok202]
     = ({| code := Some 400; written := "failed to parse update request" |},
        startWorld [Ok ok202])
     ∧ trace (run (PostSite "blog") brokenBody [Ok ok202]).2 = []).
Proof.
  split.
  - apply (malformed_body_is_rejected (H := library) (Transport0 := scripted)
             server (inbound brokenBody) [Ok ok200; Ok ok200; Ok ok202]).
    vm_compute. exact I.
  - apply (malformed_body_is_rejected (H := library) (Transport0 := scripted)
             server (inbound brokenBody) [Ok ok202]).
    vm_compute. exact I.
Defined.

(** A create, an update and a delete that the remote accepts. *)
Lemma accepted_write_answers_202_witness :
  (run PostSites createBody [Ok ok200; Ok ok200; Ok ok202]).1
  = {| code := Some 202;
       written := siteDocument {| site_ID := "blog"; site_URL := EmptyString;
                                  site_Status := EmptyString |} +:+ newline |}
  ∧ (run (PostSite "blog") updateBody [Ok ok202]).1
    = {| code := Some 202; written := EmptyString |}
  ∧ (run (DeleteSite "blog") EmptyString [Ok ok202]).1
    = {| code := Some 202; written := EmptyString |}.
Proof.
  split; [|split].
  - apply (accepted_write_answers_202 (H := library) (Transport0 := scripted)
             server (inbound createBody) [Ok ok200; Ok ok200; Ok ok202]) with (c := blog).
    + vm_compute. reflexivity.
    + vm_compute. repeat constructor.
    + reflexivity.
  - apply (accepted_write_answers_202 (H := library) (Transport0 := scripted)
             server (inbound updateBody) [Ok ok202])
      with (u := {| update_Content := "hello again" |}).
    + vm_compute. reflexivity.
    + vm_compute. repeat constructor.
  - apply (accepted_write_answers_202 (H := library) (Transport0 := scripted)
             server (inbound EmptyString) [Ok ok202]).
    vm_compute. repeat constructor.
Defined.

(** The request an update of "blog" sends. *)
Lemma update_resends_no_settings_witness :
  ∃ req reply b oc,
    trace (run (PostSite "blog") updateBody [Ok ok202]).2 = [(req, reply)]
    ∧ Body req = DeploymentBody b
    ∧ InheritSettings b = true
    ∧ Operation b = "update"
    ∧ OperationContext (Settings b) = Some oc
    ∧ Environment oc = {[ "SITE_CONTENT" := "hello again" ]}
    ∧ OIDC oc = None
    ∧ SourceContext (Settings b) = None
    ∧ GitHub (Settings b) = None.
Proof.
  apply (update_resends_no_settings (H := library) (Transport0 := scripted)
           server (inbound updateBody) [Ok ok202] "blog"
           {| update_Content := "hello again" |}).
  vm_compute. reflexivity.
Defined.

(** A create whose settings configuration is refused: two calls, the
    second one failed, nothing after it. *)
Lemma create_attempts_no_rollback_witness :
  (trace (run PostSites createBody [Ok ok200; Ok quota; Ok ok202]).2).*1
  = [createStackCall (H := library) server "blog"; settingsCall (H := library) server "blog"]
  ∧ (∀ i e, trace (run PostSites createBody [Ok ok200; Ok quota; Ok ok202]).2 !! i = Some e →
            failed e = true → 2%nat = S i)
  ∧ Forall (λ e, Method e.1 = POST
                 ∧ ∀ b, Body e.1 = DeploymentBody b → Operation b = "update")
           (trace (run PostSites createBody [Ok ok200; Ok quota; Ok ok202]).2).
Proof.
  pose proof (create_attempts_no_rollback (H := library) (Transport0 := scripted)
                server (inbound createBody) [Ok ok200; Ok quota; Ok ok202]) as Hrun.
  change (@decode_createSiteRequest library (req_Body (inbound createBody)))
    with (Ok blog) in Hrun.
  destruct Hrun as ((_ & Hlast & _) & Hposts).
  split; [reflexivity|]. split; [exact Hlast | exact Hposts].
Defined.

(** A get of "blog" whose root resource has a number under "websiteUrl". *)
Lemma get_omits_url_without_string_output_witness :
  ∃ v, (run (GetSite "blog") EmptyString
          [stream 200 idleStack; stream 200 (export "3" rootWithNumber)]).1
       = (Encode (H := library) freshWriter v).1
       ∧ site_ID v = "blog"
       ∧ urlOmitted v
       ∧ statusOf (run (GetSite "blog") EmptyString
                     [stream 200 idleStack; stream 200 (export "3" rootWithNumber)]).1 = 200.
Proof.
  apply (get_omits_url_without_string_output (H := library) (Transport0 := scripted)
           server (inbound EmptyString)
           [stream 200 idleStack; stream 200 (export "3" rootWithNumber)]
           "blog"
           {| StatusCode := 200; RespBody := EmptyString; RawBody := idleStack |}
           {| StatusCode := 200; RespBody := EmptyString;
              RawBody := export "3" rootWithNumber |}
           {| Version := 3; Deployment := rootWithNumber |}
           {| Resources :=
                [ {| Type_ := "pulumi:pulumi:Stack";
                     Outputs := {[ "websiteUrl" := JNumber "8080" ]} |} ] |}
           [] []
           {| Type_ := "pulumi:pulumi:Stack";
              Outputs := {[ "websiteUrl" := JNumber "8080" ]} |}).
  - vm_compute. reflexivity.
  - reflexivity.
  - reflexivity.
  - vm_compute. reflexivity.
  - reflexivity.
  - vm_compute. reflexivity.
  - reflexivity.
  - constructor.
  - reflexivity.
  - right. exists (JNumber "8080"). split; [vm_compute; reflexivity|].
    intros u. discriminate.
Defined.

(** *** Where the code departs from a stated property *)

(** Against C2 as stated: the registration and the settings configuration
    both answer 200, the start of the deployment is refused, and the
    handler answers 500. *)
Lemma create_fails_when_deployment_start_fails :
  trace (run PostSites createBody [Ok ok200; Ok ok200; Ok quota]).2
  = [ (createStackCall (H := library) server "blog", Ok ok200);
      (settingsCall (H := library) server "blog", Ok ok200);
      (updateStackCall (H := library) server "blog" "hello", Ok quota) ]
  ∧ failed (createStackCall (H := library) server "blog", Ok ok200) = false
  ∧ failed (settingsCall (H := library) server "blog", Ok ok200) = false
  ∧ (run PostSites createBody [Ok ok200; Ok ok200; Ok quota]).1
    = {| code := Some 500; written := "Internal Server Error" |}.
Proof. vm_compute. repeat split. Qed.

(** Against C4 as stated: the registration of a create is answered 409,
    which is neither 202 nor any 2xx status, and the handler answers 202. *)
Lemma conflict_answer_is_not_a_500 :
  (createStackCall (H := library) server "blog", Ok conflict)
    ∈ trace (run PostSites createBody [Ok conflict; Ok ok200; Ok ok202]).2
  ∧ ¬ (200 ≤ StatusCode conflict < 300)
  ∧ StatusCode conflict ≠ 202
  ∧ statusOf (run PostSites createBody [Ok conflict; Ok ok200; Ok ok202]).1 = 202.
Proof.
  split; [vm_compute; constructor|].
  split; [cbn; lia|]. split; [discriminate|reflexivity].
Qed.

(** C8, at the failing input: no organization is configured and the
    "current user" lookup answers 200 with an empty list of
    organizations; [main] neither resolves an organization nor takes the
    fatal exit, it ends in the index panic. *)
Theorem startup_panics_on_empty_organization_list :
  (main (H := library) (Transport0 := scripted) flags
     (startWorld [stream 200 noOrganizations])).1
  = Crashed "index out of range [0] with length 0".
Proof. vm_compute. reflexivity. Qed.


End Examples.

(** ** The further properties at work on the scripted remote *)

Module Further.
Import Sample.

(** A create whose settings call is cut off by the network. *)
Lemma transport_failure_surfaces_as_500_witness :
  (run PostSites createBody [Ok ok200; Err "connection reset"]).1
  = {| code := Some 500; written := "Internal Server Error" |}
  ∧ length (trace (run PostSites createBody [Ok ok200; Err "connection reset"]).2) = 2%nat
  ∧ last (trace (run PostSites createBody [Ok ok200; Err "connection reset"]).2)
    = Some (settingsCall (H := library) server "blog", Err "connection reset")
  ∧ ∃ step, stepLabel PostSites 1 = Some step
      ∧ last (logged (run PostSites createBody [Ok ok200; Err "connection reset"]).2)
        = Some ("Internal Server Error: " +:+ step +:+ ": " +:+ "connection reset").
Proof.
  apply (transport_failure_surfaces_as_500 (H := library) (Transport0 := scripted)
           server PostSites (inbound createBody) [Ok ok200; Err "connection reset"]
           1%nat (settingsCall (H := library) server "blog") "connection reset").
  vm_compute. reflexivity.
Defined.

(** A get on a refused lookup logs an error line and answers 500. *)
Lemma server_error_iff_logged_witness :
  written (run (GetSite "blog") EmptyString [stream 404 "no such stack"]).1
  = "Internal Server Error".
Proof.
  apply (server_error_iff_logged (H := library) (Transport0 := scripted)
           server (GetSite "blog") (inbound EmptyString) [stream 404 "no such stack"]).
  reflexivity.
Defined.

(** A get of "blog" once the site is up: the bucket comes first in the
    export, the root stack resource second. *)
Lemma get_reports_website_url_witness :
  ∃ v, (run (GetSite "blog") EmptyString
          [stream 200 idleStack; stream 200 (export "3" rootWithUrl)]).1
       = (Encode (H := library) freshWriter v).1
       ∧ site_ID v = "blog"
       ∧ site_URL v = "http://blog.example"
       ∧ statusOf (run (GetSite "blog") EmptyString
                     [stream 200 idleStack; stream 200 (export "3" rootWithUrl)]).1 = 200.
Proof.
  apply (get_reports_website_url (H := library) (Transport0 := scripted)
           server (inbound EmptyString)
           [stream 200 idleStack; stream 200 (export "3" rootWithUrl)]
           "blog"
           {| StatusCode := 200; RespBody := EmptyString; RawBody := idleStack |}
           {| StatusCode := 200; RespBody := EmptyString;
              RawBody := export "3" rootWithUrl |}
           {| Version := 3; Deployment := rootWithUrl |}
           {| Resources :=
                [ {| Type_ := "aws:s3/bucket:Bucket"; Outputs := ∅ |};
                  {| Type_ := "pulumi:pulumi:Stack";
                     Outputs := {[ "websiteUrl" := JString "http://blog.example" ]} |} ] |}
           [ {| Type_ := "aws:s3/bucket:Bucket"; Outputs := ∅ |} ] []
           {| Type_ := "pulumi:pulumi:Stack";
              Outputs := {[ "websiteUrl" := JString "http://blog.example" ]} |}).
  - vm_compute. reflexivity.
  - reflexivity.
  - reflexivity.
  - vm_compute. reflexivity.
  - reflexivity.
  - vm_compute. reflexivity.
  - reflexivity.
  - repeat constructor. discriminate.
  - reflexivity.
  - vm_compute. reflexivity.
Defined.

(** A get whose export does not decode: 500, after two calls. *)
Lemma get_fails_iff_unreadable_witness :
  (code (run (GetSite "blog") EmptyString [stream 200 idleStack; stream 200 brokenBody]).1
   = Some 500
   ↔ ¬ (stackReadable (H := library) (stream 200 idleStack)
        ∧ exportReadable (H := library) (stream 200 brokenBody)))
  ∧ (length (trace (run (GetSite "blog") EmptyString
                      [stream 200 idleStack; stream 200 brokenBody]).2) = 2%nat
     ↔ stackReadable (H := library) (stream 200 idleStack)).
Proof.
  apply (get_fails_iff_unreadable (H := library) (Transport0 := scripted)
           server (inbound EmptyString)
           [stream 200 idleStack; stream 200 brokenBody] "blog"
           [stream 200 brokenBody] (stream 200 idleStack)
           [] (stream 200 brokenBody)); reflexivity.
Defined.

(** Startup with neither [-repo] nor [-token]: the repo is reported. *)
Lemma startup_checks_flags_first_witness :
  main (H := library) (Transport0 := scripted)
    {| flag_repo := EmptyString; flag_branch := "main"; flag_dir := EmptyString;
       flag_role_arn := "arn:aws:iam::1:role/deploy";
       flag_session_name := "site-deploy"; flag_token := EmptyString;
       flag_org := EmptyString; flag_project := "sites"; flag_addr := ":8080" |}
    (startWorld [stream 200 oneOrganization])
  = (Fatal "the -repo flag is required", startWorld [stream 200 oneOrganization]).
Proof.
  apply (startup_checks_flags_first (H := library) (Transport0 := scripted)).
  reflexivity.
Defined.

(** Startup with [-org acme]: the lookup answer is left unread. *)
Lemma startup_with_configured_org_witness :
  main (H := library) (Transport0 := scripted)
    {| flag_repo := "acme/sites"; flag_branch := "main"; flag_dir := EmptyString;
       flag_role_arn := "arn:aws:iam::1:role/deploy";
       flag_session_name := "site-deploy"; flag_token := "secret";
       flag_org := "acme"; flag_project := "sites"; flag_addr := ":8080" |}
    (startWorld [stream 200 noOrganizations])
  = (Serving {| repository := "acme/sites"; branch := "main"; dir := EmptyString;
                roleARN := "arn:aws:iam::1:role/deploy";
                sessionName := "site-deploy"; apiToken := "secret";
                org := "acme"; project := "sites" |} ":8080",
     startWorld [stream 200 noOrganizations]).
Proof.
  apply (startup_with_configured_org (H := library) (Transport0 := scripted)
           {| flag_repo := "acme/sites"; flag_branch := "main"; flag_dir := EmptyString;
              flag_role_arn := "arn:aws:iam::1:role/deploy";
              flag_session_name := "site-deploy"; flag_token := "secret";
              flag_org := "acme"; flag_project := "sites"; flag_addr := ":8080" |});
    discriminate.
Defined.

(** Startup without [-org], the lookup answered with one organization. *)
Lemma startup_uses_first_organization_witness :
  (main (H := library) (Transport0 := scripted) flags
     (startWorld [stream 200 oneOrganization])).1
  = Serving (serverOf flags "acme") ":8080".
Proof.
  apply (startup_uses_first_organization (H := library) (Transport0 := scripted) flags)
    with (rm' := []) (resp := {| StatusCode := 200; RespBody := EmptyString;
                                 RawBody := oneOrganization |})
         (body := {| Organizations := [ {| GitHubLogin := "acme" |} ] |})
         (first := {| GitHubLogin := "acme" |}) (rest := []);
    try discriminate; reflexivity.
Defined.

(** Startup without [-org], the lookup refused: the fatal exit. *)
Lemma startup_fatal_iff_lookup_fails_witness :
  ∃ line, (main (H := library) (Transport0 := scripted) flags
             (startWorld [answer 401 "unauthorized"])).1 = Fatal line.
Proof.
  apply (startup_fatal_iff_lookup_fails (H := library) (Transport0 := scripted) flags)
    with (rm' := []) (reply := answer 401 "unauthorized");
    try discriminate; try reflexivity.
  left. discriminate.
Defined.

(** The settings call of a create on the sample server, whose directory is
    "site". *)
Lemma create_settings_request_witness :
  ∃ st gh,
    Body (settingsCall (H := library) server "blog") = SettingsBody st
    ∧ GitHub st = Some gh
    ∧ Paths gh = ["site/**"].
Proof.
  destruct (create_settings_request (H := library) (Transport0 := scripted)
              server (inbound createBody) [Ok ok200; Ok ok200; Ok ok202]
              (settingsCall (H := library) server "blog") (Ok ok200))
    as (st & src & oc & gh & Hbody & _ & _ & _ & _ & _ & Hgh & _ & _ & _ & _ & Hpaths).
  - vm_compute. reflexivity.
  - exists st, gh. split; [exact Hbody|]. split; [exact Hgh|].
    apply Hpaths. discriminate.
Defined.

(** A second create of "blog": the registration answers 409 and the log
    still says that the stack was created. *)
Lemma created_line_iff_registration_accepted_witness :
  "created stack 'acme/sites/blog'"
    ∈ logged (run PostSites createBody [Ok conflict; Ok ok200; Ok ok202]).2.
Proof.
  apply (created_line_iff_registration_accepted (H := library) (Transport0 := scripted)
           server (inbound createBody) [Ok conflict; Ok ok200; Ok ok202] blog).
  - vm_compute. reflexivity.
  - exists conflict. split; [reflexivity | right; reflexivity].
Defined.

(** Creating "blog" with "hello", then an update of "blog" with "hello". *)
Lemma create_deploys_as_update_does_witness :
  ∃ reply',
    trace (serve (H := libraryWithHello) (Transport0 := scripted) server (PostSite "blog")
             (inbound helloBody) [Ok quota]).2
    = [(updateStackCall (H := libraryWithHello) server "blog" "hello", reply')].
Proof.
  apply (create_deploys_as_update_does (H := libraryWithHello) (Transport0 := scripted)
           server (inbound createBody) [Ok ok200; Ok ok200; Ok ok202] blog
           (updateStackCall (H := libraryWithHello) server "blog" "hello") (Ok ok202)
           (inbound helloBody) [Ok quota] {| update_Content := "hello" |}).
  - vm_compute. reflexivity.
  - vm_compute. reflexivity.
  - vm_compute. reflexivity.
  - reflexivity.
Defined.

End Further.
